(** * Invoice pricing calculator: a shallow embedding of
      [src/invoice_service.py] and the properties its specification states.

    Numbers.  Python's [float] is IEEE 754 binary64, which is what Rocq's
    primitive [float] is: the arithmetic below is the arithmetic the program
    performs, rounding included.  Python's [int] is unbounded and is [Z].
    The annotation [unit_price: float] is not enforced and admits an [int]
    as well, so a price is a [number]: an [int] or a [float].  With an [int]
    price [unit_price * qty] is the exact integer product, converted to a
    float when it is added to the subtotal; with a [float] price the quantity
    is converted first, as in [5.0 * qty].  The conversion rounds to
    nearest-even and raises [OverflowError] when the rounded value is not
    finite; it is [float_of_int].  The integer literals of the configuration tables
    (500, 60, 20, ...) are all exactly representable, so they are written as
    floats: adding them to a float, or comparing a float with them, gives the
    same answer as Python's mixed operation.

    Strings.  A Python [str] is modelled by [string], each character standing
    for the code point of the same number (so code points below 256).

    Effects.  The methods raise exceptions and [_calculate_discount] appends to
    a list it shares with its caller; [result] carries the exceptions and the
    warnings list is passed in and handed back.  [compute_total] is written in
    a small monad that also records which helper methods have been called. *)

From Stdlib Require Import ZArith List String Ascii Bool Lia.
From Stdlib Require Import Floats.
From Stdlib Require Uint63.
Import ListNotations.

Set Warnings "-inexact-float".

(** ** Python values and operations used by the program *)

Module Py.

Inductive exn : Type :=
| ValueError (msg : string)
| OverflowError
| KeyError (key : string)
| AttributeError.

Inductive result (A : Type) : Type :=
| Return (a : A)
| Raise (e : exn).
Arguments Return {A} a.
Arguments Raise {A} e.

Definition bind {A B} (r : result A) (k : A -> result B) : result B :=
  match r with
  | Return a => k a
  | Raise e => Raise e
  end.

(** [float(n)] for an integer [n], as in an arithmetic operation between a
    float and an int. *)
Definition float_of_int (n : Z) : result float :=
  let f := SF2Prim (binary_normalize prec emax n 0 false) in
  if PrimFloat.is_infinity f then Raise OverflowError else Return f.

(** A value of a field annotated [float]: an [int] or a [float]. *)
Inductive number : Type :=
| PyInt (n : Z)
| PyFloat (f : float).

Coercion PyFloat : float >-> number.

(** [a < 0] *)
Definition lt_zero (a : number) : bool :=
  match a with
  | PyInt n => (n <? 0)%Z
  | PyFloat f => (f <? 0)%float
  end.

(** [a * n] for an integer [n]: the exact product between integers; with a
    float, [n] is converted and the product is a float. *)
Definition mul_int (a : number) (n : Z) : result number :=
  match a with
  | PyInt m => Return (PyInt (m * n))
  | PyFloat f => bind (float_of_int n) (fun q => Return (PyFloat (f * q)))
  end.

(** [x + b] for a float [x]: an integer [b] is converted first. *)
Definition add_number (x : float) (b : number) : result float :=
  match b with
  | PyInt m => bind (float_of_int m) (fun q => Return (x + q)%float)
  | PyFloat f => Return (x + f)%float
  end.

(** [max(a, b)]: the first argument is kept unless the second compares
    greater. *)
Definition max (a b : float) : float :=
  if PrimFloat.ltb a b then b else a.

(** Truth value of a string and of a list: empty is false. *)
Definition truthy_str (s : string) : bool :=
  match s with
  | EmptyString => false
  | String _ _ => true
  end.

Definition truthy_list {A} (l : list A) : bool :=
  match l with
  | [] => false
  | _ :: _ => true
  end.

(** [x in (a, b, ...)] for strings. *)
Definition in_tuple (x : string) (t : list string) : bool :=
  existsb (String.eqb x) t.

(** A dictionary with string keys, in the order of its literal. *)
Definition dict (V : Type) : Type := list (string * V).

Fixpoint dict_lookup {V} (d : dict V) (k : string) : option V :=
  match d with
  | [] => None
  | (k', v) :: d' => if String.eqb k k' then Some v else dict_lookup d' k
  end.

(** [k in d] *)
Definition dict_contains {V} (d : dict V) (k : string) : bool :=
  match dict_lookup d k with
  | Some _ => true
  | None => false
  end.

(** [d[k]] *)
Definition dict_getitem {V} (d : dict V) (k : string) : result V :=
  match dict_lookup d k with
  | Some v => Return v
  | None => Raise (KeyError k)
  end.

(** [d.get(k, default)] *)
Definition dict_get {V} (d : dict V) (k : string) (default : V) : V :=
  match dict_lookup d k with
  | Some v => v
  | None => default
  end.

(** [str.isspace] on one character: tab to carriage return, the four
    separators 0x1c-0x1f, space, NEL and the no-break space. *)
Definition is_space (c : ascii) : bool :=
  let n := N_of_ascii c in
  ((9 <=? n) && (n <=? 13) || (28 <=? n) && (n <=? 32)
   || (n =? 133) || (n =? 160))%N.

Fixpoint lstrip (s : string) : string :=
  match s with
  | EmptyString => EmptyString
  | String c s' => if is_space c then lstrip s' else s
  end.

Fixpoint rstrip (s : string) : string :=
  match s with
  | EmptyString => EmptyString
  | String c s' =>
      match rstrip s' with
      | EmptyString => if is_space c then EmptyString else String c EmptyString
      | r => String c r
      end
  end.

(** [s.strip()] *)
Definition strip (s : string) : string := rstrip (lstrip s).

(** [sep.join(l)] *)
Fixpoint join (sep : string) (l : list string) : string :=
  match l with
  | [] => EmptyString
  | [x] => x
  | x :: rest => String.append x (String.append sep (join sep rest))
  end.

End Py.

Export Py.

Notation "x <- c1 ;; c2" := (Py.bind c1 (fun x => c2))
  (at level 61, c1 at next level, right associativity).
Notation "' pat <- c1 ;; c2" := (Py.bind c1 (fun x => match x with pat => c2 end))
  (at level 61, pat pattern, c1 at next level, right associativity).

(** ** The data model: [LineItem] and [Invoice] *)

Record LineItem : Type := mkLineItem {
  sku : string;
  category : string;
  unit_price : number;
  qty : Z;
  fragile : bool
}.

Record Invoice : Type := mkInvoice {
  invoice_id : string;
  customer_id : string;
  country : string;
  membership : string;
  coupon : option string;
  items : list LineItem
}.

(** ** The configuration tables of [InvoiceService] *)

Definition COUPON_RATES : dict float :=
  [ ("WELCOME10", 0.10); ("VIP20", 0.20); ("STUDENT5", 0.05) ]%float%string.

Definition SHIPPING_CONFIG : dict (float * float) :=
  [ ("TH"%string, (500, 60));
    ("JP"%string, (4000, 600));
    ("US"%string, (100, 15));
    ("DEFAULT"%string, (200, 25)) ]%float.

Definition US_SHIPPING_TIERS : list (float * float) :=
  [ (100, 15); (300, 8) ]%float.

Definition TAX_RATES : dict float :=
  [ ("TH"%string, 0.07); ("JP"%string, 0.10);
    ("US"%string, 0.08); ("DEFAULT"%string, 0.05) ]%float.

Definition MEMBERSHIP_DISCOUNTS : dict float :=
  [ ("gold"%string, 0.03); ("platinum"%string, 0.05) ]%float.

(** ** [_validate] *)

(** The body of the loop over the items: each of the four tests appends to
    [problems] on its own. *)
Definition validate_item (problems : list string) (it : LineItem) : list string :=
  let problems :=
    if negb (truthy_str (sku it))
    then problems ++ ["Item sku is missing"%string] else problems in
  let problems :=
    if (qty it <=? 0)%Z
    then problems ++ [String.append "Invalid qty for " (sku it)] else problems in
  let problems :=
    if lt_zero (unit_price it)
    then problems ++ [String.append "Invalid price for " (sku it)] else problems in
  let problems :=
    if negb (in_tuple (category it) ["book"; "food"; "electronics"; "other"]%string)
    then problems ++ [String.append "Unknown category for " (sku it)] else problems in
  problems.

Definition _validate (inv : option Invoice) : list string :=
  let problems : list string := [] in
  match inv with
  | None => problems ++ ["Invoice is missing"%string]
  | Some inv =>
      let problems :=
        if negb (truthy_str (invoice_id inv))
        then problems ++ ["Missing invoice_id"%string] else problems in
      let problems :=
        if negb (truthy_str (customer_id inv))
        then problems ++ ["Missing customer_id"%string] else problems in
      let problems :=
        if negb (truthy_list (items inv))
        then problems ++ ["Invoice must contain items"%string] else problems in
      fold_left validate_item (items inv) problems
  end.

(** ** [_calculate_subtotal_and_fragile_fee] *)

Fixpoint subtotal_loop (its : list LineItem) (subtotal fragile_fee : float)
  : result (float * float) :=
  match its with
  | [] => Return (subtotal, fragile_fee)
  | it :: rest =>
      amount <- mul_int (unit_price it) (qty it) ;;
      subtotal <- add_number subtotal amount ;;
      if fragile it then
        handling <- mul_int (PyFloat 5.0) (qty it) ;;
        fragile_fee <- add_number fragile_fee handling ;;
        subtotal_loop rest subtotal fragile_fee
      else subtotal_loop rest subtotal fragile_fee
  end.

Definition _calculate_subtotal_and_fragile_fee (its : list LineItem)
  : result (float * float) :=
  subtotal_loop its 0.0%float 0.0%float.

(** ** [_calculate_shipping] *)

(** The loop over [US_SHIPPING_TIERS], which returns from the method at the
    first tier whose threshold is above the subtotal. *)
Fixpoint us_tier_loop (tiers : list (float * float)) (subtotal : float) : float :=
  match tiers with
  | [] => 0.0%float
  | (threshold, fee) :: rest =>
      if (subtotal <? threshold)%float then fee else us_tier_loop rest subtotal
  end.

Definition _calculate_shipping (country : string) (subtotal : float) : result float :=
  if String.eqb country "US" then Return (us_tier_loop US_SHIPPING_TIERS subtotal)
  else
    default <- dict_getitem SHIPPING_CONFIG "DEFAULT" ;;
    let config := dict_get SHIPPING_CONFIG country default in
    let '(threshold, fee) := config in
    Return (if (subtotal <? threshold)%float then fee else 0.0%float).

(** ** [_calculate_discount] *)

Definition _calculate_discount (inv : Invoice) (subtotal : float)
  (warnings : list string) : result (float * list string) :=
  let discount := 0.0%float in
  discount <-
    (if dict_contains MEMBERSHIP_DISCOUNTS (membership inv) then
       rate <- dict_getitem MEMBERSHIP_DISCOUNTS (membership inv) ;;
       Return (discount + subtotal * rate)%float
     else if (3000 <? subtotal)%float then Return (discount + 20)%float
     else Return discount) ;;
  match coupon inv with
  | Some c =>
      if truthy_str c then
        let code := strip c in
        if dict_contains COUPON_RATES code then
          rate <- dict_getitem COUPON_RATES code ;;
          Return ((discount + subtotal * rate)%float, warnings)
        else Return (discount, warnings ++ ["Unknown coupon"%string])
      else Return (discount, warnings)
  | None => Return (discount, warnings)
  end.

(** ** [_calculate_tax] *)

Definition _calculate_tax (country : string) (taxable_amount : float) : result float :=
  default <- dict_getitem TAX_RATES "DEFAULT" ;;
  let rate := dict_get TAX_RATES country default in
  Return (taxable_amount * rate)%float.

(** ** [compute_total] *)

(** The helper methods [compute_total] calls, as entries of the call record. *)
Inductive Call : Type :=
| call_validate
| call_subtotal
| call_shipping
| call_discount
| call_tax.

(** Exceptions together with the record of the helper calls made so far. *)
Module Traced.

Definition M (A : Type) : Type := list Call -> list Call * result A.

Definition ret {A} (a : A) : M A := fun log => (log, Return a).

Definition raise {A} (e : exn) : M A := fun log => (log, Raise e).

Definition bind {A B} (m : M A) (k : A -> M B) : M B :=
  fun log =>
    match m log with
    | (log', Return a) => k a log'
    | (log', Raise e) => (log', Raise e)
    end.

(** Calling helper [c], whose outcome is [r]. *)
Definition call {A} (c : Call) (r : result A) : M A :=
  fun log => (log ++ [c], r).

(** Reading an attribute of [inv], which fails on [None]. *)
Definition deref {A} (inv : option A) : M A :=
  match inv with
  | Some i => ret i
  | None => raise AttributeError
  end.

End Traced.

Notation "x <~ c1 ;; c2" := (Traced.bind c1 (fun x => c2))
  (at level 61, c1 at next level, right associativity).
Notation "' pat <~ c1 ;; c2" :=
  (Traced.bind c1 (fun x => match x with pat => c2 end))
  (at level 61, pat pattern, c1 at next level, right associativity).

Definition compute_total_traced (inv : option Invoice)
  : Traced.M (float * list string) :=
  let warnings : list string := [] in
  problems <~ Traced.call call_validate (Return (_validate inv)) ;;
  if truthy_list problems then Traced.raise (ValueError (join "; " problems))
  else
    inv <~ Traced.deref inv ;;
    '(subtotal, fragile_fee) <~
      Traced.call call_subtotal (_calculate_subtotal_and_fragile_fee (items inv)) ;;
    shipping <~
      Traced.call call_shipping (_calculate_shipping (country inv) subtotal) ;;
    '(discount, warnings) <~
      Traced.call call_discount (_calculate_discount inv subtotal warnings) ;;
    tax <~
      Traced.call call_tax (_calculate_tax (country inv) (subtotal - discount)%float) ;;
    let total :=
      Py.max 0.0%float (subtotal + shipping + fragile_fee + tax - discount)%float in
    let warnings :=
      if (10000 <? subtotal)%float
         && negb (in_tuple (membership inv) ["gold"; "platinum"]%string)
      then warnings ++ ["Consider membership upgrade"%string] else warnings in
    Traced.ret (total, warnings).

(** What [compute_total] returns or raises, and the helpers it called. *)
Definition compute_total (inv : option Invoice) : result (float * list string) :=
  snd (compute_total_traced inv []).

Definition compute_total_calls (inv : option Invoice) : list Call :=
  fst (compute_total_traced inv []).

(** ** The specification's wording of the pricing steps

    These definitions follow the sentences of the specification (sections
    4.1 to 4.6), not the code; the theorems below compare the two. *)

Module Spec.

(** 4.1: the problems of one item, found independently of the others. *)
Definition item_problems (it : LineItem) : list string :=
  (if String.eqb (sku it) "" then ["Item sku is missing"%string] else [])
  ++ (if (qty it <=? 0)%Z
      then [String.append "Invalid qty for " (sku it)] else [])
  ++ (if lt_zero (unit_price it)
      then [String.append "Invalid price for " (sku it)] else [])
  ++ (if in_tuple (category it) ["book"; "food"; "electronics"; "other"]%string
      then [] else [String.append "Unknown category for " (sku it)]).

(** 4.1: the problems of the invoice's own fields. *)
Definition header_problems (inv : Invoice) : list string :=
  (if String.eqb (invoice_id inv) "" then ["Missing invoice_id"%string] else [])
  ++ (if String.eqb (customer_id inv) "" then ["Missing customer_id"%string] else [])
  ++ (match items inv with
      | [] => ["Invoice must contain items"%string]
      | _ :: _ => []
      end).

(** A problem message about a quantity. *)
Definition is_qty_problem (msg : string) : bool :=
  String.prefix "Invalid qty for " msg.

(** 4.3: the first tier whose threshold exceeds the subtotal, in listed
    order; free when there is none. *)
Definition us_shipping (subtotal : float) : float :=
  match find (fun tier => (subtotal <? fst tier)%float) US_SHIPPING_TIERS with
  | Some tier => snd tier
  | None => 0.0%float
  end.

(** 4.3: the (threshold, fee) entry of a country other than "US". *)
Definition shipping_entry (country : string) : float * float :=
  match dict_lookup SHIPPING_CONFIG country with
  | Some entry => entry
  | None => (200, 25)%float
  end.

Definition shipping (country : string) (subtotal : float) : float :=
  if String.eqb country "US" then us_shipping subtotal
  else
    let entry := shipping_entry country in
    if (subtotal <? fst entry)%float then snd entry else 0.0%float.

(** 4.4: the membership part, added to a discount that starts at zero:
    the member's rate, or else the flat 20 above 3000. *)
Definition membership_discount (membership : string) (subtotal : float) : float :=
  match dict_lookup MEMBERSHIP_DISCOUNTS membership with
  | Some rate => (0 + subtotal * rate)%float
  | None => if (3000 <? subtotal)%float then (0 + 20)%float else 0%float
  end.

(** 4.4: the discount once a coupon code has been looked up. *)
Definition add_coupon (code : string) (subtotal discount : float) : float :=
  match dict_lookup COUPON_RATES code with
  | Some rate => (discount + subtotal * rate)%float
  | None => discount
  end.

Definition coupon_warning (code : string) : list string :=
  match dict_lookup COUPON_RATES code with
  | Some _ => []
  | None => ["Unknown coupon"%string]
  end.

(** 4.5: the rate of a country, 0.05 when it has none of its own. *)
Definition tax_rate (country : string) : float :=
  match dict_lookup TAX_RATES country with
  | Some rate => rate
  | None => 0.05%float
  end.

(** 4.6, step 7. *)
Definition upgrade_warning (membership : string) (subtotal : float) : list string :=
  if (10000 <? subtotal)%float
     && negb (String.eqb membership "gold")
     && negb (String.eqb membership "platinum")
  then ["Consider membership upgrade"%string] else [].

End Spec.

(** The coupon as the code sees it: a code to look up when the field holds a
    non-empty string, nothing otherwise. *)
Definition coupon_code (inv : Invoice) : option string :=
  match coupon inv with
  | Some c => if truthy_str c then Some (strip c) else None
  | None => None
  end.

(** The discount and the warnings of [_calculate_discount] in closed form. *)
Definition discount_of (inv : Invoice) (subtotal : float) : float :=
  let d := Spec.membership_discount (membership inv) subtotal in
  match coupon_code inv with
  | Some code => Spec.add_coupon code subtotal d
  | None => d
  end.

Definition coupon_warnings_of (inv : Invoice) : list string :=
  match coupon_code inv with
  | Some code => Spec.coupon_warning code
  | None => []
  end.

(** The total of step 6, from the subtotal and the fragile fee. *)
Definition total_of (inv : Invoice) (subtotal fragile_fee : float) : float :=
  let discount := discount_of inv subtotal in
  let tax := ((subtotal - discount) * Spec.tax_rate (country inv))%float in
  Py.max 0.0%float
    (subtotal + Spec.shipping (country inv) subtotal + fragile_fee + tax - discount)%float.

(** An integer that converts to a float. *)
Definition converts (n : Z) : Prop := exists q, float_of_int n = Return q.

(** The conversions the subtotal loop makes for one item all succeed: the
    product for an [int] price or the quantity for a [float] price, and the
    quantity again for the handling fee of a fragile item. *)
Definition line_converts (it : LineItem) : Prop :=
  match unit_price it with
  | PyInt p => converts (p * qty it)
  | PyFloat _ => converts (qty it)
  end
  /\ (fragile it = true -> converts (qty it)).

Definition amounts_convert (its : list LineItem) : Prop :=
  Forall line_converts its.

(** ** Invoices used as examples *)

Module Examples.

(** The end-to-end scenario of the specification (section 8), whatever the
    identifiers are. *)
Definition scenario_item (sku : string) : LineItem :=
  mkLineItem sku "other" 1000%float 5 false.

Definition scenario_invoice (invoice_id customer_id sku : string) : Invoice :=
  mkInvoice invoice_id customer_id "TH" "" None [scenario_item sku].

Definition scenario : Invoice := scenario_invoice "INV-1" "CUST-1" "SKU-1".

(** The same scenario with the price written as the integer 1000. *)
Definition scenario_invoice_int (invoice_id customer_id sku : string) : Invoice :=
  mkInvoice invoice_id customer_id "TH" "" None
    [mkLineItem sku "other" (PyInt 1000) 5 false].

(** One unit-priced item whose quantity is 2^1024. *)
Definition huge_quantity_invoice : Invoice :=
  mkInvoice "INV-2" "CUST-1" "TH" "" None
    [mkLineItem "SKU-1" "other" 1%float (2 ^ 1024) false].

(** A coupon field that holds the empty string. *)
Definition empty_coupon_invoice : Invoice :=
  mkInvoice "INV-3" "CUST-1" "TH" "" (Some ""%string)
    [mkLineItem "SKU-1" "other" 100%float 1 false].

(** An unknown coupon on a large order of a non-member. *)
Definition unknown_coupon_invoice : Invoice :=
  mkInvoice "INV-4" "CUST-1" "US" "Gold" (Some " VIP21 "%string)
    [mkLineItem "SKU-1" "book" 20000%float 1 true].

(** Two items with a bad quantity each, and an invoice with neither an
    identifier nor items. *)
Definition two_bad_quantities : Invoice :=
  mkInvoice "INV-5" "CUST-1" "JP" "gold" None
    [mkLineItem "SKU-1" "book" 10%float 0 false;
     mkLineItem "SKU-2" "food" 10%float (-3) false].

Definition no_id_no_items : Invoice :=
  mkInvoice "" "CUST-1" "JP" "gold" None [].

(** Integer prices: a product too large to convert although the quantity
    converts, and a zero price on a quantity that does not convert. *)
Definition int_price_overflow_invoice : Invoice :=
  mkInvoice "INV-11" "CUST-1" "TH" "" None
    [mkLineItem "SKU-1" "other" (PyInt 10) (2 ^ 1023) false].

Definition zero_price_invoice : Invoice :=
  mkInvoice "INV-12" "CUST-1" "TH" "" None
    [mkLineItem "SKU-1" "other" (PyInt 0) (2 ^ 1024) false].

(** A fragile item between two that are not, and a list without any. *)
Definition mixed_items : list LineItem :=
  [mkLineItem "SKU-1" "book" 10%float 3 false;
   mkLineItem "SKU-2" "electronics" 250%float 2 true;
   mkLineItem "SKU-3" "food" (PyInt 4) 6 false].

Definition sturdy_items : list LineItem :=
  [mkLineItem "SKU-1" "book" 10%float 3 false;
   mkLineItem "SKU-3" "food" (PyInt 4) 6 false].

Definition mixed_invoice : Invoice :=
  mkInvoice "INV-13" "CUST-1" "JP" "gold" (Some "VIP20"%string) mixed_items.

Definition gold_invoice : Invoice :=
  mkInvoice "INV-6" "CUST-1" "TH" "gold" None
    [mkLineItem "SKU-1" "electronics" 4000%float 1 false].

End Examples.

(** ** Definitions for the further properties *)

(** A float that does not compare below zero, read on its specification
    value: a zero of either sign, a positive number, plus infinity, or NaN. *)
Definition sf_not_negative (x : spec_float) : bool :=
  match x with
  | S754_zero _ => true
  | S754_nan => true
  | S754_infinity s => negb s
  | S754_finite s _ _ => negb s
  end.

(** [not (x < 0)], as the validator tests a price. *)
Definition not_negative (x : float) : Prop := (x <? 0)%float = false.

(** What the pricing steps read of an item, and of an invoice. *)
Definition priced_fields (it : LineItem) : number * Z * bool :=
  (unit_price it, qty it, fragile it).

Definition pricing_inputs (inv : Invoice)
  : string * string * option string * list (number * Z * bool) :=
  (country inv, membership inv, coupon inv, map priced_fields (items inv)).

(** [_calculate_shipping] for a service whose [SHIPPING_CONFIG] and
    [US_SHIPPING_TIERS] attributes hold the given tables: the method reads
    both through [self]. *)
Definition calculate_shipping_with (config : dict (float * float))
  (tiers : list (float * float)) (country : string) (subtotal : float)
  : result float :=
  if String.eqb country "US" then Return (us_tier_loop tiers subtotal)
  else
    default <- dict_getitem config "DEFAULT" ;;
    let entry := dict_get config country default in
    let '(threshold, fee) := entry in
    Return (if (subtotal <? threshold)%float then fee else 0.0%float).

(** The outcomes [compute_total] can have, with the helpers called. *)
Inductive Outcome : Type :=
| Rejected (msg : string)
| Overflowed
| Priced (total : float) (warnings : list string).

Definition outcome_result (o : Outcome) : result (float * list string) :=
  match o with
  | Rejected msg => Raise (ValueError msg)
  | Overflowed => Raise OverflowError
  | Priced total warnings => Return (total, warnings)
  end.

Definition outcome_calls (o : Outcome) : list Call :=
  match o with
  | Rejected _ => [call_validate]
  | Overflowed => [call_validate; call_subtotal]
  | Priced _ _ =>
      [call_validate; call_subtotal; call_shipping; call_discount; call_tax]
  end.

(** ** Facts about the Python operations *)

Section PythonFacts.

Lemma max_zero_nonneg (x : float) : (0 <=? Py.max 0 x)%float = true.
Proof.
  unfold Py.max.
  destruct (0 <? x)%float eqn:Hlt; [| reflexivity].
  rewrite ltb_spec in Hlt. rewrite leb_spec.
  unfold SFltb in Hlt. unfold SFleb.
  destruct (SFcompare (Prim2SF 0) (Prim2SF x)) as [[ | | ] | ];
    congruence.
Qed.


Lemma truthy_str_eqb (s : string) : negb (truthy_str s) = String.eqb s "".
Proof. destruct s; reflexivity. Qed.


Lemma in_tuple_pair (x a b : string) :
  in_tuple x [a; b] = String.eqb x a || String.eqb x b.
Proof. unfold in_tuple. simpl. now rewrite orb_false_r. Qed.


(** The conversion is exact on small integers, rounds to nearest-even above
    2^53, and overflows from 2^1024 - 2^970 on. *)
Lemma float_of_int_examples :
  float_of_int 5 = Return 5%float
  /\ float_of_int (2 ^ 53 + 1) = Return 9007199254740992%float
  /\ float_of_int (2 ^ 1024 - 2 ^ 970 - 1) = Return 0x1.fffffffffffffp+1023%float
  /\ float_of_int (2 ^ 1024 - 2 ^ 970) = Raise OverflowError
  /\ float_of_int (2 ^ 1024) = Raise OverflowError.
Proof.
  repeat split; vm_compute; reflexivity.
Qed.

Lemma float_of_int_raises (n : Z) (e : exn) :
  float_of_int n = Raise e -> e = OverflowError.
Proof.
  unfold float_of_int.
  destruct (is_infinity _); congruence.
Qed.


End PythonFacts.

(** ** The helper methods in closed form *)

Section Helpers.

Lemma us_tier_loop_find (tiers : list (float * float)) (subtotal : float) :
  us_tier_loop tiers subtotal =
  match find (fun tier => (subtotal <? fst tier)%float) tiers with
  | Some tier => snd tier
  | None => 0.0%float
  end.
Proof.
  induction tiers as [| [threshold fee] rest IH]; simpl; [reflexivity |].
  destruct (subtotal <? threshold)%float; [reflexivity | exact IH].
Qed.

Lemma calculate_shipping_spec (c : string) (subtotal : float) :
  _calculate_shipping c subtotal = Return (Spec.shipping c subtotal).
Proof.
  unfold _calculate_shipping, Spec.shipping.
  destruct (String.eqb c "US").
  - unfold Spec.us_shipping. now rewrite us_tier_loop_find.
  - change (dict_getitem SHIPPING_CONFIG "DEFAULT") with (Return (200, 25)%float).
    unfold bind, dict_get, Spec.shipping_entry.
    destruct (dict_lookup SHIPPING_CONFIG c) as [[threshold fee] |]; reflexivity.
Qed.

Lemma calculate_tax_spec (c : string) (taxable_amount : float) :
  _calculate_tax c taxable_amount
  = Return (taxable_amount * Spec.tax_rate c)%float.
Proof.
  unfold _calculate_tax, Spec.tax_rate.
  change (dict_getitem TAX_RATES "DEFAULT") with (Return 0.05%float).
  unfold bind, dict_get.
  destruct (dict_lookup TAX_RATES c); reflexivity.
Qed.

Lemma calculate_discount_spec (inv : Invoice) (subtotal : float) (w : list string) :
  _calculate_discount inv subtotal w
  = Return (discount_of inv subtotal, w ++ coupon_warnings_of inv).
Proof.
  unfold _calculate_discount, discount_of, coupon_warnings_of, coupon_code,
    Spec.membership_discount, Spec.add_coupon, Spec.coupon_warning,
    dict_contains, dict_getitem.
  destruct (dict_lookup MEMBERSHIP_DISCOUNTS (membership inv)) as [rate |];
    [| destruct (3000 <? subtotal)%float ];
    cbv beta iota delta [bind];
    (destruct (coupon inv) as [c |]; [destruct (truthy_str c) |];
     try destruct (dict_lookup COUPON_RATES (strip c));
     cbv beta iota delta [bind];
     rewrite ?app_nil_r; reflexivity).
Qed.

Lemma validate_item_spec (problems : list string) (it : LineItem) :
  validate_item problems it = problems ++ Spec.item_problems it.
Proof.
  unfold validate_item, Spec.item_problems.
  rewrite truthy_str_eqb.
  destruct (String.eqb (sku it) ""), (qty it <=? 0)%Z,
    (lt_zero (unit_price it)), (in_tuple (category it) _);
    simpl; rewrite <- ?app_assoc, ?app_nil_r; reflexivity.
Qed.

Lemma validate_loop_spec (its : list LineItem) (problems : list string) :
  fold_left validate_item its problems
  = problems ++ flat_map Spec.item_problems its.
Proof.
  revert problems.
  induction its as [| it rest IH]; intros problems; simpl.
  - now rewrite app_nil_r.
  - rewrite IH, validate_item_spec. now rewrite app_assoc.
Qed.

Lemma validate_spec (inv : Invoice) :
  _validate (Some inv)
  = Spec.header_problems inv ++ flat_map Spec.item_problems (items inv).
Proof.
  unfold _validate, Spec.header_problems.
  rewrite validate_loop_spec, !truthy_str_eqb.
  destruct (String.eqb (invoice_id inv) ""), (String.eqb (customer_id inv) ""),
    (items inv); reflexivity.
Qed.

Lemma validate_none : _validate None = ["Invoice is missing"%string].
Proof. reflexivity. Qed.

Lemma mul_int_raises (a : number) (n : Z) (e : exn) :
  mul_int a n = Raise e -> e = OverflowError.
Proof.
  destruct a as [m | f]; simpl; [discriminate |].
  destruct (float_of_int n) as [q |] eqn:Hq; simpl; [discriminate |].
  intros H. injection H as <-. now apply float_of_int_raises in Hq.
Qed.

Lemma add_number_raises (x : float) (b : number) (e : exn) :
  add_number x b = Raise e -> e = OverflowError.
Proof.
  destruct b as [m | f]; simpl; [| discriminate].
  destruct (float_of_int m) as [q |] eqn:Hq; simpl; [discriminate |].
  intros H. injection H as <-. now apply float_of_int_raises in Hq.
Qed.

(** The amount of a line is added exactly when its conversion succeeds. *)
Lemma line_amount_returns (it : LineItem) (x : float) :
  (exists y, (amount <- mul_int (unit_price it) (qty it) ;; add_number x amount)
             = Return y)
  <-> match unit_price it with
      | PyInt p => converts (p * qty it)
      | PyFloat _ => converts (qty it)
      end.
Proof.
  unfold converts. destruct (unit_price it) as [p | f]; simpl.
  - destruct (float_of_int (p * qty it)) as [q |]; simpl; split;
      intros [y H]; try discriminate; eauto.
  - destruct (float_of_int (qty it)) as [q |]; simpl; split;
      intros [y H]; try discriminate; eauto.
Qed.

Lemma handling_returns (it : LineItem) (x : float) :
  (exists y, (handling <- mul_int (PyFloat 5.0) (qty it) ;; add_number x handling)
             = Return y)
  <-> converts (qty it).
Proof.
  unfold converts. simpl.
  destruct (float_of_int (qty it)) as [q |]; simpl; split;
    intros [y H]; try discriminate; eauto.
Qed.

Lemma subtotal_loop_raises (its : list LineItem) :
  forall subtotal fragile_fee e,
    subtotal_loop its subtotal fragile_fee = Raise e -> e = OverflowError.
Proof.
  induction its as [| it rest IH]; intros subtotal fragile_fee e;
    cbn -[mul_int add_number].
  - discriminate.
  - destruct (mul_int (unit_price it) (qty it)) as [amount |] eqn:Hm;
      cbn -[mul_int add_number];
      [| intros H; injection H as <-; now apply mul_int_raises in Hm].
    destruct (add_number subtotal amount) as [s1 |] eqn:Ha;
      cbn -[mul_int add_number];
      [| intros H; injection H as <-; now apply add_number_raises in Ha].
    destruct (fragile it); [| apply IH].
    destruct (mul_int (PyFloat 5.0) (qty it)) as [handling |] eqn:Hh;
      cbn -[mul_int add_number];
      [| intros H; injection H as <-; now apply mul_int_raises in Hh].
    destruct (add_number fragile_fee handling) as [f1 |] eqn:Hf;
      cbn -[mul_int add_number];
      [| intros H; injection H as <-; now apply add_number_raises in Hf].
    apply IH.
Qed.

Lemma subtotal_loop_returns (its : list LineItem) :
  amounts_convert its ->
  forall subtotal fragile_fee,
  exists s f, subtotal_loop its subtotal fragile_fee = Return (s, f).
Proof.
  induction 1 as [| it rest [Hline Hfrag] _ IH]; intros subtotal fragile_fee.
  - simpl. eauto.
  - cbn -[mul_int add_number].
    apply (line_amount_returns it subtotal) in Hline. destruct Hline as [s1 Hs1].
    destruct (mul_int (unit_price it) (qty it)) as [amount |];
      cbn -[mul_int add_number] in Hs1 |- *; [| discriminate].
    rewrite Hs1. cbn -[mul_int add_number].
    destruct (fragile it); [| apply IH].
    specialize (Hfrag eq_refl).
    apply (handling_returns it fragile_fee) in Hfrag. destruct Hfrag as [f1 Hf1].
    destruct (mul_int (PyFloat 5.0) (qty it)) as [handling |];
      cbn -[mul_int add_number] in Hf1 |- *; [| discriminate].
    rewrite Hf1. cbn -[mul_int add_number]. apply IH.
Qed.

Lemma subtotal_loop_converts (its : list LineItem) :
  forall subtotal fragile_fee s f,
    subtotal_loop its subtotal fragile_fee = Return (s, f) ->
    amounts_convert its.
Proof.
  induction its as [| it rest IH]; intros subtotal fragile_fee s f.
  - constructor.
  - cbn -[mul_int add_number]. intros H.
    pose proof (line_amount_returns it subtotal) as Hline.
    destruct (mul_int (unit_price it) (qty it)) as [amount |];
      cbn -[mul_int add_number] in H, Hline; [| discriminate].
    destruct (add_number subtotal amount) as [s1 |];
      cbn -[mul_int add_number] in H; [| discriminate].
    assert (Hl : match unit_price it with
                 | PyInt p => converts (p * qty it)
                 | PyFloat _ => converts (qty it)
                 end) by (apply Hline; eauto).
    destruct (fragile it) eqn:Hfr.
    + pose proof (handling_returns it fragile_fee) as Hh.
      destruct (mul_int (PyFloat 5.0) (qty it)) as [handling |];
        cbn -[mul_int add_number] in H, Hh; [| discriminate].
      destruct (add_number fragile_fee handling) as [f1 |];
        cbn -[mul_int add_number] in H; [| discriminate].
      constructor; [| eapply IH; exact H].
      unfold line_converts. rewrite Hfr. split; [exact Hl |].
      intros _. apply Hh. eauto.
    + constructor; [| eapply IH; exact H].
      unfold line_converts. rewrite Hfr. split; [exact Hl | discriminate].
Qed.

(** Integer and float prices differ in where the conversion happens: the
    product 3 * (2^53 + 1) is exact before it is rounded, while 3.0 times the
    rounded quantity is not; the product 10 * 2^1023 is too large although
    2^1023 converts; and 0 * 2^1024 is 0 although 2^1024 does not convert,
    unless the item is fragile and the quantity is converted for the fee. *)
Lemma int_price_examples :
  _calculate_subtotal_and_fragile_fee
    [mkLineItem "SKU-1" "book" (PyInt 3) (2 ^ 53 + 1) false]
  = Return (27021597764222980, 0)%float
  /\ _calculate_subtotal_and_fragile_fee
       [mkLineItem "SKU-1" "book" (PyFloat 3) (2 ^ 53 + 1) false]
     = Return (27021597764222976, 0)%float
  /\ _calculate_subtotal_and_fragile_fee
       [mkLineItem "SKU-1" "book" (PyInt 10) (2 ^ 1023) false]
     = Raise OverflowError
  /\ _calculate_subtotal_and_fragile_fee
       [mkLineItem "SKU-1" "book" (PyInt 0) (2 ^ 1024) false]
     = Return (0, 0)%float
  /\ _calculate_subtotal_and_fragile_fee
       [mkLineItem "SKU-1" "book" (PyInt 0) (2 ^ 1024) true]
     = Raise OverflowError.
Proof.
  repeat split; vm_compute; reflexivity.
Qed.

End Helpers.

(** ** [compute_total] in closed form *)

Section ComputeTotal.

(** A failed validation: the error is raised after the single call. *)
Lemma compute_total_traced_invalid (inv : option Invoice) :
  _validate inv <> [] ->
  compute_total_traced inv []
  = ([call_validate], Raise (ValueError (join "; " (_validate inv)))).
Proof.
  intros Hne. unfold compute_total_traced, Traced.bind, Traced.call.
  destruct (_validate inv) as [| p ps]; [congruence | reflexivity].
Qed.

(** A passed validation: the four pricing helpers run in order, and only
    the subtotal can stop the computation. *)
Lemma compute_total_traced_valid (inv : Invoice) :
  _validate (Some inv) = [] ->
  compute_total_traced (Some inv) []
  = match _calculate_subtotal_and_fragile_fee (items inv) with
    | Return (subtotal, fragile_fee) =>
        ([call_validate; call_subtotal; call_shipping; call_discount; call_tax],
         Return (total_of inv subtotal fragile_fee,
                 coupon_warnings_of inv
                 ++ Spec.upgrade_warning (membership inv) subtotal))
    | Raise e => ([call_validate; call_subtotal], Raise e)
    end.
Proof.
  intros Hvalid.
  unfold compute_total_traced, Traced.bind, Traced.call, Traced.deref, Traced.ret.
  rewrite Hvalid. cbn [truthy_list app].
  destruct (_calculate_subtotal_and_fragile_fee (items inv)) as [[subtotal fee] | e];
    [| reflexivity].
  rewrite calculate_shipping_spec, calculate_discount_spec, calculate_tax_spec.
  cbn [app]. unfold total_of, Spec.upgrade_warning.
  rewrite in_tuple_pair, negb_orb, andb_assoc.
  destruct (_ && _ && _); rewrite ?app_nil_r; reflexivity.
Qed.

Lemma compute_total_valid (inv : Invoice) :
  _validate (Some inv) = [] ->
  compute_total (Some inv)
  = ('(subtotal, fragile_fee) <- _calculate_subtotal_and_fragile_fee (items inv) ;;
     Return (total_of inv subtotal fragile_fee,
             coupon_warnings_of inv
             ++ Spec.upgrade_warning (membership inv) subtotal)).
Proof.
  intros Hvalid. unfold compute_total.
  rewrite (compute_total_traced_valid inv Hvalid). unfold bind.
  destruct (_calculate_subtotal_and_fragile_fee (items inv)) as [[s f] | e];
    reflexivity.
Qed.

Lemma compute_total_invalid (inv : option Invoice) :
  _validate inv <> [] ->
  compute_total inv = Raise (ValueError (join "; " (_validate inv))).
Proof.
  intros Hne. unfold compute_total.
  now rewrite (compute_total_traced_invalid inv Hne).
Qed.

(** A returned result comes from an invoice that is present and valid. *)
Lemma compute_total_returns_inv (inv : option Invoice) total warnings :
  compute_total inv = Return (total, warnings) ->
  exists i subtotal fragile_fee,
    inv = Some i
    /\ _validate (Some i) = []
    /\ _calculate_subtotal_and_fragile_fee (items i) = Return (subtotal, fragile_fee)
    /\ total = total_of i subtotal fragile_fee
    /\ warnings = coupon_warnings_of i
                  ++ Spec.upgrade_warning (membership i) subtotal.
Proof.
  intros Hret.
  destruct (_validate inv) as [| p ps] eqn:Hv.
  - destruct inv as [i |]; [| discriminate Hv].
    rewrite (compute_total_valid i Hv) in Hret.
    destruct (_calculate_subtotal_and_fragile_fee (items i)) as [[s f] | e] eqn:Hs;
      [| discriminate Hret].
    injection Hret as <- <-. exists i, s, f. repeat split; auto.
  - rewrite compute_total_invalid in Hret by (rewrite Hv; discriminate).
    discriminate Hret.
Qed.

(** A valid invoice either has convertible amounts and is priced, or makes
    [compute_total] raise [OverflowError]. *)
Lemma compute_total_valid_outcome (inv : Invoice) :
  _validate (Some inv) = [] ->
  (amounts_convert (items inv)
   /\ exists total warnings, compute_total (Some inv) = Return (total, warnings))
  \/ (~ amounts_convert (items inv)
      /\ compute_total (Some inv) = Raise OverflowError).
Proof.
  intros Hvalid. rewrite (compute_total_valid inv Hvalid).
  unfold _calculate_subtotal_and_fragile_fee.
  destruct (subtotal_loop (items inv) 0 0) as [[s f] | e] eqn:Hs.
  - left. split; [eapply subtotal_loop_converts; exact Hs | simpl; eauto].
  - right. split.
    + intros Hq. destruct (subtotal_loop_returns _ Hq 0%float 0%float) as (s & f & H).
      congruence.
    + apply subtotal_loop_raises in Hs. now subst e.
Qed.

Lemma coupon_warnings_cases (inv : Invoice) :
  coupon_warnings_of inv = [] \/ coupon_warnings_of inv = ["Unknown coupon"%string].
Proof.
  unfold coupon_warnings_of, Spec.coupon_warning.
  destruct (coupon_code inv) as [code |]; auto.
  destruct (dict_lookup COUPON_RATES code); auto.
Qed.

Lemma upgrade_warning_cases (m : string) (subtotal : float) :
  Spec.upgrade_warning m subtotal = []
  \/ Spec.upgrade_warning m subtotal = ["Consider membership upgrade"%string].
Proof.
  unfold Spec.upgrade_warning. destruct (_ && _ && _); auto.
Qed.

Lemma upgrade_warning_iff (m : string) (subtotal : float) :
  In "Consider membership upgrade"%string (Spec.upgrade_warning m subtotal)
  <-> ((10000 <? subtotal)%float = true
       /\ m <> "gold"%string /\ m <> "platinum"%string).
Proof.
  unfold Spec.upgrade_warning.
  destruct (10000 <? subtotal)%float;
    destruct (String.eqb_spec m "gold"); destruct (String.eqb_spec m "platinum");
    simpl; split; intros H; try tauto;
    try (destruct H as (? & ? & ?); congruence).
Qed.

End ComputeTotal.

(** ** The properties of the specification *)

(** C1 (as amended).  For every invoice that passes validation and on
    which the accumulation of the subtotal does not overflow (every
    conversion of an integer to a float made while the items are summed
    succeeds), [compute_total] returns
    [total = max(0, subtotal + shipping + fragile_fee + tax - discount)],
    where [tax = (subtotal - discount) * rate] with the rate of the country
    or else the DEFAULT rate 0.05; the taxable amount [subtotal - discount]
    may be negative and is not clamped before the multiplication: the tax is
    that product with no test on its sign; and the returned total is at
    least zero, clamping happening in the final formula only. *)
Theorem C1_total_formula (inv : Invoice) :
  _validate (Some inv) = [] ->
  amounts_convert (items inv) ->
  exists subtotal fragile_fee shipping discount tax total warnings,
    _calculate_subtotal_and_fragile_fee (items inv) = Return (subtotal, fragile_fee)
    /\ _calculate_shipping (country inv) subtotal = Return shipping
    /\ (exists w, _calculate_discount inv subtotal [] = Return (discount, w))
    /\ _calculate_tax (country inv) (subtotal - discount)%float = Return tax
    /\ tax = ((subtotal - discount)
              * match dict_lookup TAX_RATES (country inv) with
                | Some rate => rate
                | None => 0.05
                end)%float
    /\ compute_total (Some inv) = Return (total, warnings)
    /\ total = Py.max 0 (subtotal + shipping + fragile_fee + tax - discount)%float
    /\ (0 <=? total)%float = true.
Proof.
  intros Hvalid Hq.
  destruct (subtotal_loop_returns _ Hq 0%float 0%float) as (s & f & Hs).
  exists s, f, (Spec.shipping (country inv) s), (discount_of inv s),
    ((s - discount_of inv s) * Spec.tax_rate (country inv))%float,
    (total_of inv s f),
    (coupon_warnings_of inv ++ Spec.upgrade_warning (membership inv) s).
  split; [exact Hs |].
  split; [apply calculate_shipping_spec |].
  split; [eexists; apply calculate_discount_spec |].
  split; [apply calculate_tax_spec |].
  split; [reflexivity |].
  split; [| split; [reflexivity | apply max_zero_nonneg]].
  rewrite (compute_total_valid inv Hvalid).
  unfold _calculate_subtotal_and_fragile_fee. now rewrite Hs.
Qed.

Lemma C1_total_formula_witness :
  exists subtotal fragile_fee shipping discount tax total warnings,
    _calculate_subtotal_and_fragile_fee (items Examples.mixed_invoice)
    = Return (subtotal, fragile_fee)
    /\ _calculate_shipping (country Examples.mixed_invoice) subtotal = Return shipping
    /\ (exists w,
          _calculate_discount Examples.mixed_invoice subtotal [] = Return (discount, w))
    /\ _calculate_tax (country Examples.mixed_invoice) (subtotal - discount)%float
       = Return tax
    /\ tax = ((subtotal - discount)
              * match dict_lookup TAX_RATES (country Examples.mixed_invoice) with
                | Some rate => rate
                | None => 0.05
                end)%float
    /\ compute_total (Some Examples.mixed_invoice) = Return (total, warnings)
    /\ total = Py.max 0 (subtotal + shipping + fragile_fee + tax - discount)%float
    /\ (0 <=? total)%float = true.
Proof.
  apply (C1_total_formula Examples.mixed_invoice).
  - vm_compute. reflexivity.
  - repeat (constructor;
            [split; [eexists; vm_compute; reflexivity
                    | intros _; eexists; vm_compute; reflexivity] |]).
    constructor.
Defined.

(** C1, as stated, fails: an invoice that passes validation but holds a
    quantity too large to convert makes [compute_total] raise
    [OverflowError], so no total is returned. *)
Lemma C1_overflow_counterexample :
  _validate (Some Examples.huge_quantity_invoice) = []
  /\ compute_total (Some Examples.huge_quantity_invoice) = Raise OverflowError.
Proof.
  split; vm_compute; reflexivity.
Qed.

(** C2.  [compute_total] raises the validation error exactly when the
    validator reports at least one problem; the error carries the problems
    joined by "; " in the order found; and when it is raised the validator is
    the only helper that has been called: no subtotal, shipping, discount or
    tax is computed, and nothing is returned. *)
Theorem C2_validation_error (inv : option Invoice) :
  ((exists msg, compute_total inv = Raise (ValueError msg)) <-> _validate inv <> [])
  /\ (_validate inv <> [] ->
      compute_total inv = Raise (ValueError (join "; " (_validate inv)))
      /\ compute_total_calls inv = [call_validate]).
Proof.
  split; [split |].
  - intros [msg Hraise] Hnil.
    destruct inv as [i |]; [| discriminate Hnil].
    rewrite (compute_total_valid i Hnil) in Hraise.
    destruct (_calculate_subtotal_and_fragile_fee (items i)) as [[s f] | e] eqn:Hs;
      [discriminate Hraise |].
    apply subtotal_loop_raises in Hs. subst e. discriminate Hraise.
  - intros Hne. eexists. now apply compute_total_invalid.
  - intros Hne. split; [now apply compute_total_invalid |].
    unfold compute_total_calls.
    now rewrite (compute_total_traced_invalid inv Hne).
Qed.

Lemma C2_validation_error_witness :
  compute_total (Some Examples.two_bad_quantities)
  = Raise (ValueError "Invalid qty for SKU-1; Invalid qty for SKU-2")
  /\ compute_total_calls (Some Examples.two_bad_quantities) = [call_validate].
Proof.
  apply (proj2 (C2_validation_error (Some Examples.two_bad_quantities))).
  vm_compute. discriminate.
Defined.

(** C3.  For every country and subtotal: for "US" the shipping fee is the fee
    of the first tier of ((100,15),(300,8)), in listed order, whose threshold
    is above the subtotal, and 0.0 when there is none (50 gives 15, 150 gives
    8, 500 gives 0); for any other country it is the fee of that country's
    (threshold, fee) entry of the shipping table, or of the "DEFAULT" entry
    (200,25) when the country has none, if the subtotal is below the
    threshold, and 0 otherwise. *)
Theorem C3_shipping_fee (c : string) (subtotal : float) :
  _calculate_shipping c subtotal
  = Return
      (if String.eqb c "US" then
         match find (fun tier => (subtotal <? fst tier)%float)
                 [(100, 15); (300, 8)]%float with
         | Some tier => snd tier
         | None => 0%float
         end
       else
         let '(threshold, fee) :=
           match dict_lookup SHIPPING_CONFIG c with
           | Some entry => entry
           | None => (200, 25)%float
           end in
         if (subtotal <? threshold)%float then fee else 0%float)
  /\ _calculate_shipping "US" 50 = Return 15%float
  /\ _calculate_shipping "US" 150 = Return 8%float
  /\ _calculate_shipping "US" 500 = Return 0%float
  /\ dict_lookup SHIPPING_CONFIG "DEFAULT" = Some (200, 25)%float
  /\ dict_lookup SHIPPING_CONFIG "FR" = None
  /\ _calculate_shipping "FR" 199 = Return 25%float
  /\ _calculate_shipping "FR" 200 = Return 0%float.
Proof.
  split; [| repeat split; vm_compute; reflexivity].
  rewrite calculate_shipping_spec. unfold Spec.shipping.
  destruct (String.eqb c "US"); [reflexivity |].
  unfold Spec.shipping_entry.
  destruct (dict_lookup SHIPPING_CONFIG c) as [[threshold fee] |]; reflexivity.
Qed.

(** C4.  The membership part of the discount is an either/or: when the
    membership is a key of the membership table the discount gets
    [subtotal * rate] and no flat 20; the flat 20 is added only when the
    membership is not a key and the subtotal is above 3000.  The coupon part
    is added on top of it.  With membership "gold", subtotal 4000 and no
    coupon the discount is exactly 120, not 140. *)
Theorem C4_membership_exclusive (inv : Invoice) (subtotal : float) (w : list string) :
  let part :=
    match dict_lookup MEMBERSHIP_DISCOUNTS (membership inv) with
    | Some rate => (0 + subtotal * rate)%float
    | None => if (3000 <? subtotal)%float then (0 + 20)%float else 0%float
    end in
  _calculate_discount inv subtotal w
  = Return (match coupon_code inv with
            | Some code => Spec.add_coupon code subtotal part
            | None => part
            end,
            w ++ coupon_warnings_of inv)
  /\ (coupon inv = None -> _calculate_discount inv subtotal w = Return (part, w))
  /\ (forall invoice_id customer_id c its,
        _calculate_discount (mkInvoice invoice_id customer_id c "gold" None its) 4000 w
        = Return (120%float, w))
  /\ (4000 * 0.03 + 20)%float = 140%float
  /\ 120%float <> 140%float.
Proof.
  cbv zeta. split; [apply calculate_discount_spec |].
  split; [| split; [| split]].
  - intros Hnone. rewrite calculate_discount_spec.
    unfold discount_of, coupon_warnings_of, coupon_code. rewrite Hnone.
    now rewrite app_nil_r.
  - intros iid cid c its. rewrite calculate_discount_spec.
    unfold coupon_warnings_of, coupon_code, discount_of; cbn [coupon membership].
    rewrite app_nil_r. reflexivity.
  - vm_compute. reflexivity.
  - intros H. apply (f_equal (fun x => PrimFloat.eqb x 120)) in H.
    vm_compute in H. discriminate H.
Qed.

Lemma C4_membership_exclusive_witness :
  _calculate_discount Examples.gold_invoice 4000 [] = Return (120%float, []).
Proof.
  apply (proj1 (proj2 (C4_membership_exclusive Examples.gold_invoice 4000 []))).
  reflexivity.
Defined.

(** C5 (as amended).  For every invoice whose coupon is neither null nor the
    empty string, the coupon is stripped of surrounding whitespace and looked
    up: if the stripped code is in the coupon table, [subtotal * rate] is
    added to the discount and no warning is produced; otherwise the coupon
    adds nothing to the discount and the warning "Unknown coupon" is appended
    once.  When the coupon is null or the empty string, neither happens. *)
Theorem C5_coupon_lookup (inv : Invoice) (subtotal : float) (w : list string) :
  let part := Spec.membership_discount (membership inv) subtotal in
  _calculate_discount inv subtotal w
  = Return
      match coupon inv with
      | None => (part, w)
      | Some c =>
          if String.eqb c "" then (part, w)
          else
            match dict_lookup COUPON_RATES (strip c) with
            | Some rate => ((part + subtotal * rate)%float, w)
            | None => (part, w ++ ["Unknown coupon"%string])
            end
      end.
Proof.
  cbv zeta. rewrite calculate_discount_spec.
  unfold discount_of, coupon_warnings_of, coupon_code,
    Spec.add_coupon, Spec.coupon_warning.
  destruct (coupon inv) as [c |]; [| now rewrite app_nil_r].
  rewrite <- truthy_str_eqb.
  destruct (truthy_str c); cbn [negb]; [| now rewrite app_nil_r].
  destruct (dict_lookup COUPON_RATES (strip c)); rewrite ?app_nil_r; reflexivity.
Qed.

(** C5, as stated, fails on a coupon that is the empty string: it is not
    null and its stripped code is not in the coupon table, yet no warning is
    appended. *)
Lemma C5_empty_coupon_counterexample :
  coupon Examples.empty_coupon_invoice = Some ""%string
  /\ dict_lookup COUPON_RATES (strip "") = None
  /\ _calculate_discount Examples.empty_coupon_invoice 100 [] = Return (0%float, [])
  /\ compute_total (Some Examples.empty_coupon_invoice) = Return (167%float, []).
Proof.
  repeat split; vm_compute; reflexivity.
Qed.

Section QuantityProblems.

Lemma filter_flat_map {A B} (p : B -> bool) (f : A -> list B) (l : list A) :
  filter p (flat_map f l) = flat_map (fun x => filter p (f x)) l.
Proof.
  induction l as [| x l IH]; simpl; [reflexivity |].
  now rewrite filter_app, IH.
Qed.

Lemma qty_problems_of_header (inv : Invoice) :
  filter Spec.is_qty_problem (Spec.header_problems inv) = [].
Proof.
  unfold Spec.header_problems.
  destruct (String.eqb (invoice_id inv) ""), (String.eqb (customer_id inv) ""),
    (items inv); reflexivity.
Qed.

Lemma qty_problems_of_item (it : LineItem) :
  filter Spec.is_qty_problem (Spec.item_problems it)
  = if (qty it <=? 0)%Z then [String.append "Invalid qty for " (sku it)] else [].
Proof.
  unfold Spec.item_problems.
  destruct (String.eqb (sku it) ""), (qty it <=? 0)%Z,
    (lt_zero (unit_price it)), (in_tuple (category it) _);
    cbn; rewrite ?prefix_correct; try reflexivity;
    destruct (sku it); reflexivity.
Qed.

Lemma qty_problems_of_items (its : list LineItem) :
  flat_map (fun it => filter Spec.is_qty_problem (Spec.item_problems it)) its
  = map (fun it => String.append "Invalid qty for " (sku it))
      (filter (fun it => (qty it <=? 0)%Z) its).
Proof.
  induction its as [| it rest IH]; simpl; [reflexivity |].
  rewrite qty_problems_of_item, IH.
  destruct (qty it <=? 0)%Z; reflexivity.
Qed.

Lemma qty_message_injective (a b : string) :
  String.append "Invalid qty for " a = String.append "Invalid qty for " b -> a = b.
Proof.
  simpl. intros H. now injection H.
Qed.

End QuantityProblems.

(** C6.  Validation is exhaustive and order-preserving: the problems are
    those of the invoice's own fields followed by those of every item, item
    by item, each item checked whatever the earlier ones produced.  So the
    quantity messages are exactly one per item with [qty <= 0], in item
    order; with two such items there are two of them, one per item; and an
    invoice with an empty [invoice_id] and no items is rejected with a
    message holding "Missing invoice_id" and then "Invoice must contain
    items". *)
Theorem C6_validation_exhaustive (inv : Invoice) :
  _validate (Some inv)
  = Spec.header_problems inv ++ flat_map Spec.item_problems (items inv)
  /\ filter Spec.is_qty_problem (_validate (Some inv))
     = map (fun it => String.append "Invalid qty for " (sku it))
         (filter (fun it => (qty it <=? 0)%Z) (items inv))
  /\ (forall it1 it2,
        items inv = [it1; it2] -> (qty it1 <= 0)%Z -> (qty it2 <= 0)%Z ->
        filter Spec.is_qty_problem (_validate (Some inv))
        = [String.append "Invalid qty for " (sku it1);
           String.append "Invalid qty for " (sku it2)]
        /\ (sku it1 <> sku it2 ->
            String.append "Invalid qty for " (sku it1)
            <> String.append "Invalid qty for " (sku it2)))
  /\ (invoice_id inv = ""%string -> items inv = [] ->
      exists between,
        compute_total (Some inv)
        = Raise (ValueError
                   (String.append "Missing invoice_id"
                      (String.append between "Invoice must contain items")))
        /\ (between = "; "%string \/ between = "; Missing customer_id; "%string)).
Proof.
  assert (Hq : filter Spec.is_qty_problem (_validate (Some inv))
               = map (fun it => String.append "Invalid qty for " (sku it))
                   (filter (fun it => (qty it <=? 0)%Z) (items inv))).
  { rewrite validate_spec, filter_app, qty_problems_of_header, filter_flat_map.
    apply qty_problems_of_items. }
  split; [apply validate_spec |]. split; [exact Hq |]. split.
  - intros it1 it2 Hits H1 H2. split.
    + rewrite Hq, Hits. simpl.
      apply Z.leb_le in H1, H2. now rewrite H1, H2.
    + intros Hne Heq. apply Hne. now apply qty_message_injective.
  - intros Hid Hits.
    assert (Hv : _validate (Some inv)
                 = "Missing invoice_id"%string
                   :: (if String.eqb (customer_id inv) ""
                       then ["Missing customer_id"%string] else [])
                   ++ ["Invoice must contain items"%string]).
    { rewrite validate_spec. unfold Spec.header_problems.
      rewrite Hid, Hits. simpl. now rewrite app_nil_r. }
    rewrite compute_total_invalid by (rewrite Hv; discriminate).
    rewrite Hv.
    destruct (String.eqb (customer_id inv) "").
    + exists "; Missing customer_id; "%string. split; [reflexivity | now right].
    + exists "; "%string. split; [reflexivity | now left].
Qed.

Lemma C6_validation_exhaustive_witness :
  filter Spec.is_qty_problem (_validate (Some Examples.two_bad_quantities))
  = ["Invalid qty for SKU-1"; "Invalid qty for SKU-2"]%string
  /\ exists between,
       compute_total (Some Examples.no_id_no_items)
       = Raise (ValueError
                  (String.append "Missing invoice_id"
                     (String.append between "Invoice must contain items")))
       /\ (between = "; "%string \/ between = "; Missing customer_id; "%string).
Proof.
  split.
  - refine (proj1 (proj1 (proj2 (proj2
              (C6_validation_exhaustive Examples.two_bad_quantities)))
              _ _ eq_refl _ _)); vm_compute; discriminate.
  - apply (proj2 (proj2 (proj2 (C6_validation_exhaustive Examples.no_id_no_items))));
      reflexivity.
Defined.

Section Warnings.

Lemma warnings_cases (inv : Invoice) (subtotal : float) :
  let w := coupon_warnings_of inv ++ Spec.upgrade_warning (membership inv) subtotal in
  w = []
  \/ w = ["Unknown coupon"%string]
  \/ w = ["Consider membership upgrade"%string]
  \/ w = ["Unknown coupon"; "Consider membership upgrade"]%string.
Proof.
  cbv zeta.
  destruct (coupon_warnings_cases inv) as [-> | ->],
    (upgrade_warning_cases (membership inv) subtotal) as [-> | ->];
    simpl; auto.
Qed.

Lemma upgrade_in_warnings (inv : Invoice) (subtotal : float) :
  In "Consider membership upgrade"%string
    (coupon_warnings_of inv ++ Spec.upgrade_warning (membership inv) subtotal)
  <-> In "Consider membership upgrade"%string
        (Spec.upgrade_warning (membership inv) subtotal).
Proof.
  rewrite in_app_iff. split; [| now right].
  intros [Hc | Hu]; [| exact Hu].
  destruct (coupon_warnings_cases inv) as [Hw | Hw]; rewrite Hw in Hc; simpl in Hc.
  - contradiction.
  - destruct Hc as [Hc | []]. discriminate Hc.
Qed.

End Warnings.

(** C7.  For every valid invoice, "Consider membership upgrade" is among the
    returned warnings if and only if the subtotal (before any discount) is
    above 10000 and the membership is neither "gold" nor "platinum"; the
    returned warnings are the coupon warning, if any, followed by the upgrade
    warning, if any, so when both occur "Unknown coupon" comes first. *)
Theorem C7_upgrade_warning (inv : Invoice) :
  _validate (Some inv) = [] ->
  ((exists total w,
      compute_total (Some inv) = Return (total, w)
      /\ In "Consider membership upgrade"%string w)
   <-> (exists subtotal fragile_fee,
          _calculate_subtotal_and_fragile_fee (items inv)
          = Return (subtotal, fragile_fee)
          /\ (10000 <? subtotal)%float = true
          /\ membership inv <> "gold"%string
          /\ membership inv <> "platinum"%string))
  /\ (forall total w,
        compute_total (Some inv) = Return (total, w) ->
        (exists subtotal fragile_fee discount cw uw,
           _calculate_subtotal_and_fragile_fee (items inv)
           = Return (subtotal, fragile_fee)
           /\ _calculate_discount inv subtotal [] = Return (discount, cw)
           /\ (cw = [] \/ cw = ["Unknown coupon"%string])
           /\ uw = (if (10000 <? subtotal)%float
                       && negb (in_tuple (membership inv) ["gold"; "platinum"]%string)
                    then ["Consider membership upgrade"%string] else [])
           /\ w = cw ++ uw)
        /\ (In "Unknown coupon"%string w ->
            In "Consider membership upgrade"%string w ->
            w = ["Unknown coupon"; "Consider membership upgrade"]%string)).
Proof.
  intros Hvalid. split; [split |].
  - intros (total & w & Hret & Hin).
    apply compute_total_returns_inv in Hret.
    destruct Hret as (i & s & f & Hi & _ & Hs & _ & Hw).
    injection Hi as <-. subst w.
    apply upgrade_in_warnings, upgrade_warning_iff in Hin.
    exists s, f. tauto.
  - intros (s & f & Hs & Hcond).
    exists (total_of inv s f),
      (coupon_warnings_of inv ++ Spec.upgrade_warning (membership inv) s).
    split.
    + rewrite (compute_total_valid inv Hvalid), Hs. reflexivity.
    + apply upgrade_in_warnings, upgrade_warning_iff. exact Hcond.
  - intros total w Hret.
    apply compute_total_returns_inv in Hret.
    destruct Hret as (i & s & f & Hi & _ & Hs & _ & Hw).
    injection Hi as <-. split.
    + exists s, f, (discount_of inv s), (coupon_warnings_of inv),
        (Spec.upgrade_warning (membership inv) s).
      split; [exact Hs |].
      split; [apply calculate_discount_spec |].
      split; [apply coupon_warnings_cases |].
      split; [| exact Hw].
      unfold Spec.upgrade_warning.
      now rewrite in_tuple_pair, negb_orb, andb_assoc.
    + intros Hc Hu. subst w.
      destruct (warnings_cases inv s) as [H | [H | [H | H]]];
        rewrite H in *; simpl in Hc, Hu; try tauto.
      * destruct Hu as [Hu | []]. discriminate Hu.
      * destruct Hc as [Hc | []]. discriminate Hc.
Qed.

Lemma C7_upgrade_warning_witness :
  (exists total w,
     compute_total (Some Examples.unknown_coupon_invoice) = Return (total, w)
     /\ In "Consider membership upgrade"%string w)
  <-> (exists subtotal fragile_fee,
         _calculate_subtotal_and_fragile_fee (items Examples.unknown_coupon_invoice)
         = Return (subtotal, fragile_fee)
         /\ (10000 <? subtotal)%float = true
         /\ membership Examples.unknown_coupon_invoice <> "gold"%string
         /\ membership Examples.unknown_coupon_invoice <> "platinum"%string).
Proof.
  apply (proj1 (C7_upgrade_warning Examples.unknown_coupon_invoice eq_refl)).
Defined.

(** C8.  End to end: one item (unit_price 1000, qty 5, category "other", not
    fragile), country "TH", membership "", no coupon.  [compute_total]
    succeeds with subtotal 5000, shipping 0, discount 20, tax
    (5000 - 20) * 0.07 = 348.6, total max(0, 5000 + 0 + 0 + 348.6 - 20) =
    5328.6 and no warnings.  The price may be the float 1000.0 or the
    integer 1000: the result is the same. *)
Theorem C8_end_to_end (invoice_id customer_id sku : string) :
  invoice_id <> ""%string -> customer_id <> ""%string -> sku <> ""%string ->
  let inv := Examples.scenario_invoice invoice_id customer_id sku in
  _validate (Some inv) = []
  /\ _calculate_subtotal_and_fragile_fee (items inv) = Return (5000, 0)%float
  /\ _calculate_shipping (country inv) 5000 = Return 0%float
  /\ _calculate_discount inv 5000 [] = Return (20%float, [])
  /\ _calculate_tax (country inv) (5000 - 20) = Return 348.6%float
  /\ ((5000 - 20) * 0.07)%float = 348.6%float
  /\ Py.max 0 (5000 + 0 + 0 + 348.6 - 20) = 5328.6%float
  /\ compute_total (Some inv) = Return (5328.6%float, [])
  /\ _calculate_subtotal_and_fragile_fee
       (items (Examples.scenario_invoice_int invoice_id customer_id sku))
     = Return (5000, 0)%float
  /\ compute_total (Some (Examples.scenario_invoice_int invoice_id customer_id sku))
     = Return (5328.6%float, []).
Proof.
  intros Hi Hc Hs.
  destruct invoice_id as [| a1 s1]; [congruence |].
  destruct customer_id as [| a2 s2]; [congruence |].
  destruct sku as [| a3 s3]; [congruence |].
  cbv zeta. repeat split; vm_compute; reflexivity.
Qed.

Lemma C8_end_to_end_witness :
  compute_total (Some Examples.scenario) = Return (5328.6%float, []).
Proof.
  refine (proj1 (proj2 (proj2 (proj2 (proj2 (proj2 (proj2 (proj2
            (C8_end_to_end "INV-1" "CUST-1" "SKU-1" _ _ _)))))))));
    discriminate.
Defined.

(** C9.  Whenever [compute_total] succeeds, the returned warnings are at
    most two, each is "Unknown coupon" or "Consider membership upgrade", and
    none is repeated. *)
Theorem C9_warnings_bounded (inv : option Invoice) (total : float) (w : list string) :
  compute_total inv = Return (total, w) ->
  (w = []
   \/ w = ["Unknown coupon"%string]
   \/ w = ["Consider membership upgrade"%string]
   \/ w = ["Unknown coupon"; "Consider membership upgrade"]%string)
  /\ (List.length w <= 2)%nat
  /\ (forall x, In x w ->
        x = "Unknown coupon"%string \/ x = "Consider membership upgrade"%string)
  /\ NoDup w.
Proof.
  intros Hret. apply compute_total_returns_inv in Hret.
  destruct Hret as (i & s & f & _ & _ & _ & _ & Hw).
  pose proof (warnings_cases i s) as Hcases. cbv zeta in Hcases.
  rewrite <- Hw in Hcases. clear Hw.
  split; [exact Hcases |].
  destruct Hcases as [-> | [-> | [-> | ->]]];
    (split; [simpl; lia |];
     split; [intros x Hx; simpl in Hx; intuition (subst; auto) |];
     repeat constructor; simpl; intuition discriminate).
Qed.

Lemma C9_warnings_bounded_witness :
  (List.length ["Unknown coupon"; "Consider membership upgrade"]%string <= 2)%nat
  /\ NoDup ["Unknown coupon"; "Consider membership upgrade"]%string.
Proof.
  pose proof (C9_warnings_bounded (Some Examples.unknown_coupon_invoice)
                21583.400000000001%float
                ["Unknown coupon"; "Consider membership upgrade"]%string
                eq_refl) as H.
  split; [exact (proj1 (proj2 H)) | exact (proj2 (proj2 (proj2 H)))].
Defined.

(** C10.  Membership is recognised by exact string equality with "gold" and
    "platinum", without trimming or case folding: for every invoice whose
    membership is not one of these two strings (as "Gold", "GOLD", " gold")
    no membership rate is applied, the membership part of the discount is the
    flat 20 when the subtotal is above 3000 and nothing otherwise, and on a
    valid invoice the upgrade warning is issued exactly when the subtotal is
    above 10000. *)
Theorem C10_membership_exact (inv : Invoice) :
  membership inv <> "gold"%string ->
  membership inv <> "platinum"%string ->
  dict_lookup MEMBERSHIP_DISCOUNTS (membership inv) = None
  /\ (forall subtotal w,
        let part := if (3000 <? subtotal)%float then (0 + 20)%float else 0%float in
        _calculate_discount inv subtotal w
        = Return (match coupon_code inv with
                  | Some code => Spec.add_coupon code subtotal part
                  | None => part
                  end,
                  w ++ coupon_warnings_of inv))
  /\ (_validate (Some inv) = [] ->
      forall subtotal fragile_fee,
        _calculate_subtotal_and_fragile_fee (items inv)
        = Return (subtotal, fragile_fee) ->
        exists total w,
          compute_total (Some inv) = Return (total, w)
          /\ (In "Consider membership upgrade"%string w
              <-> (10000 <? subtotal)%float = true))
  /\ (forall m, In m ["Gold"; "GOLD"; " gold"]%string ->
        m <> "gold"%string /\ m <> "platinum"%string
        /\ dict_lookup MEMBERSHIP_DISCOUNTS m = None).
Proof.
  intros Hg Hp.
  assert (Hnone : dict_lookup MEMBERSHIP_DISCOUNTS (membership inv) = None).
  { unfold MEMBERSHIP_DISCOUNTS. simpl.
    destruct (String.eqb_spec (membership inv) "gold"); [contradiction |].
    destruct (String.eqb_spec (membership inv) "platinum"); [contradiction |].
    reflexivity. }
  split; [exact Hnone |]. split; [| split].
  - intros subtotal w. cbv zeta. rewrite calculate_discount_spec.
    unfold discount_of, Spec.membership_discount. now rewrite Hnone.
  - intros Hvalid s f Hs.
    exists (total_of inv s f),
      (coupon_warnings_of inv ++ Spec.upgrade_warning (membership inv) s).
    split.
    + rewrite (compute_total_valid inv Hvalid), Hs. reflexivity.
    + rewrite upgrade_in_warnings, upgrade_warning_iff. tauto.
  - intros m Hm. simpl in Hm.
    destruct Hm as [<- | [<- | [<- | []]]]; repeat split;
      try discriminate; reflexivity.
Qed.

Lemma C10_membership_exact_witness :
  exists total w,
    compute_total (Some Examples.unknown_coupon_invoice) = Return (total, w)
    /\ (In "Consider membership upgrade"%string w
        <-> (10000 <? 20000)%float = true).
Proof.
  refine (proj1 (proj2 (proj2
            (C10_membership_exact Examples.unknown_coupon_invoice _ _)))
            eq_refl 20000%float 5%float eq_refl); discriminate.
Defined.

(** ** Further properties of the code *)

(** *** Order and sign of floats *)

Section FloatSigns.

Lemma not_negative_spec (x : float) :
  not_negative x <-> sf_not_negative (Prim2SF x) = true.
Proof.
  unfold not_negative. rewrite ltb_spec.
  change (Prim2SF 0) with (S754_zero false).
  unfold SFltb.
  destruct (Prim2SF x) as [s | s | | s m e]; simpl;
    try destruct s; simpl; split; congruence.
Qed.

Lemma binary_round_aux_not_negative (mx ex : Z) (lx : location) :
  sf_not_negative (binary_round_aux prec emax false mx ex lx) = true.
Proof.
  unfold binary_round_aux.
  destruct (shr_fexp prec emax mx ex lx) as [mrs' e'].
  destruct (shr_fexp prec emax _ e' loc_Exact) as [mrs'' e''].
  destruct (shr_m mrs''); [reflexivity | | reflexivity].
  destruct (e'' <=? emax - prec)%Z; reflexivity.
Qed.

Lemma binary_round_not_negative (m : positive) (e : Z) :
  sf_not_negative (binary_round prec emax false m e) = true.
Proof.
  unfold binary_round.
  destruct (shl_align m e _) as [mz ez].
  apply binary_round_aux_not_negative.
Qed.

Lemma binary_normalize_not_negative (n e : Z) :
  (0 <= n)%Z -> sf_not_negative (binary_normalize prec emax n e false) = true.
Proof.
  intros Hn. destruct n as [| p | p]; simpl; [reflexivity | | lia].
  apply binary_round_not_negative.
Qed.

Lemma SFmul_not_negative (x y : spec_float) :
  sf_not_negative x = true -> sf_not_negative y = true ->
  sf_not_negative (SF64mul x y) = true.
Proof.
  unfold SF64mul.
  destruct x as [sx | sx | | sx mx ex], y as [sy | sy | | sy my ey]; simpl;
    intros Hx Hy; try reflexivity;
    try (apply negb_true_iff in Hx; subst sx);
    try (apply negb_true_iff in Hy; subst sy);
    try reflexivity.
  apply binary_round_aux_not_negative.
Qed.

Lemma SFadd_not_negative (x y : spec_float) :
  sf_not_negative x = true -> sf_not_negative y = true ->
  sf_not_negative (SF64add x y) = true.
Proof.
  unfold SF64add.
  destruct x as [sx | sx | | sx mx ex], y as [sy | sy | | sy my ey]; simpl;
    intros Hx Hy; try reflexivity;
    try (apply negb_true_iff in Hx; subst sx);
    try (apply negb_true_iff in Hy; subst sy);
    try reflexivity; try (destruct sx, sy; reflexivity);
    try (destruct sx; reflexivity); try (destruct sy; reflexivity).
  apply binary_normalize_not_negative. simpl. lia.
Qed.

Lemma mul_not_negative (x y : float) :
  not_negative x -> not_negative y -> not_negative (x * y).
Proof.
  rewrite !not_negative_spec, mul_spec. apply SFmul_not_negative.
Qed.

Lemma add_not_negative (x y : float) :
  not_negative x -> not_negative y -> not_negative (x + y).
Proof.
  rewrite !not_negative_spec, add_spec. apply SFadd_not_negative.
Qed.

Lemma SF2Prim_not_negative (x : spec_float) :
  sf_not_negative x = true -> sf_not_negative (Prim2SF (SF2Prim x)) = true.
Proof.
  destruct x as [s | s | | s m e]; simpl; intros Hx;
    try (apply negb_true_iff in Hx; subst s);
    try (destruct s); try (vm_compute; reflexivity).
  rewrite Z_ldexp_spec, of_uint63_spec.
  pose proof (Uint63.to_Z_bounded (Uint63.of_Z (Z.pos m))) as [Hlo _].
  pose proof (binary_normalize_not_negative _ 0 Hlo) as Hn.
  destruct (binary_normalize prec emax _ 0 false) as [s' | s' | | s' m' e'];
    simpl in Hn |- *; try exact Hn.
  apply negb_true_iff in Hn. subst s'. apply binary_round_not_negative.
Qed.

Lemma float_of_int_not_negative (n : Z) (q : float) :
  (0 <= n)%Z -> float_of_int n = Return q -> not_negative q.
Proof.
  unfold float_of_int. intros Hn.
  destruct (is_infinity _); [discriminate |].
  intros H. injection H as <-.
  apply not_negative_spec, SF2Prim_not_negative.
  now apply binary_normalize_not_negative.
Qed.

End FloatSigns.

Section FloatOrder.

Local Ltac cmp_cases :=
  repeat match goal with
    | |- context [Z.compare ?a ?b] => destruct (Z.compare_spec a b)
    | H : context [Z.compare ?a ?b] |- _ => destruct (Z.compare_spec a b)
    | |- context [Pos.compare ?a ?b] => destruct (Pos.compare_spec a b)
    | H : context [Pos.compare ?a ?b] |- _ => destruct (Pos.compare_spec a b)
    end;
  simpl in *; try congruence; try lia.

Lemma SFleb_ltb_trans (a b c : spec_float) :
  SFleb a b = true -> SFltb b c = true -> SFltb a c = true.
Proof.
  unfold SFleb, SFltb, SFcompare.
  destruct a as [sa | sa | | sa ma ea], b as [sb | sb | | sb mb eb],
    c as [sc | sc | | sc mc ec];
    try destruct sa; try destruct sb; try destruct sc; simpl;
    try congruence;
    change (Pos.compare_cont Eq) with Pos.compare; intros H1 H2; cmp_cases.
Qed.

Lemma SFltb_ltb_trans (a b c : spec_float) :
  SFltb a b = true -> SFltb b c = true -> SFltb a c = true.
Proof.
  unfold SFltb, SFcompare.
  destruct a as [sa | sa | | sa ma ea], b as [sb | sb | | sb mb eb],
    c as [sc | sc | | sc mc ec];
    try destruct sa; try destruct sb; try destruct sc; simpl;
    try congruence;
    change (Pos.compare_cont Eq) with Pos.compare; intros H1 H2; cmp_cases.
Qed.

Lemma leb_ltb_trans (a b c : float) :
  (a <=? b)%float = true -> (b <? c)%float = true -> (a <? c)%float = true.
Proof.
  rewrite leb_spec, !ltb_spec. apply SFleb_ltb_trans.
Qed.

Lemma ltb_trans (a b c : float) :
  (a <? b)%float = true -> (b <? c)%float = true -> (a <? c)%float = true.
Proof.
  rewrite !ltb_spec. apply SFltb_ltb_trans.
Qed.

Lemma ltb_nan_l (x : float) : (nan <? x)%float = false.
Proof. rewrite ltb_spec. reflexivity. Qed.

Lemma ltb_nan_r (x : float) : (x <? nan)%float = false.
Proof.
  rewrite ltb_spec. change (Prim2SF nan) with S754_nan.
  unfold SFltb. destruct (Prim2SF x); reflexivity.
Qed.

Lemma add_nan_l (x : float) : (nan + x)%float = nan.
Proof. apply Prim2SF_inj. rewrite add_spec. reflexivity. Qed.

Lemma add_nan_r (x : float) : (x + nan)%float = nan.
Proof.
  apply Prim2SF_inj. rewrite add_spec. change (Prim2SF nan) with S754_nan.
  unfold SF64add. destruct (Prim2SF x); reflexivity.
Qed.

Lemma sub_nan_l (x : float) : (nan - x)%float = nan.
Proof. apply Prim2SF_inj. rewrite sub_spec. reflexivity. Qed.

Lemma sub_nan_r (x : float) : (x - nan)%float = nan.
Proof.
  apply Prim2SF_inj. rewrite sub_spec. change (Prim2SF nan) with S754_nan.
  unfold SF64sub. destruct (Prim2SF x); reflexivity.
Qed.

Lemma mul_nan_l (x : float) : (nan * x)%float = nan.
Proof. apply Prim2SF_inj. rewrite mul_spec. reflexivity. Qed.

Lemma mul_nan_r (x : float) : (x * nan)%float = nan.
Proof.
  apply Prim2SF_inj. rewrite mul_spec. change (Prim2SF nan) with S754_nan.
  unfold SF64mul. destruct (Prim2SF x); reflexivity.
Qed.

End FloatOrder.

(** *** Validation *)

Section ValidationFacts.

Lemma header_problems_nil (inv : Invoice) :
  Spec.header_problems inv = []
  <-> invoice_id inv <> ""%string /\ customer_id inv <> ""%string /\ items inv <> [].
Proof.
  unfold Spec.header_problems.
  destruct (String.eqb_spec (invoice_id inv) ""), (String.eqb_spec (customer_id inv) ""),
    (items inv); simpl; split; intros H; try discriminate;
    try (destruct H as (? & ? & ?); congruence); auto.
  repeat split; auto. discriminate.
Qed.

Lemma item_problems_nil (it : LineItem) :
  Spec.item_problems it = []
  <-> sku it <> ""%string
      /\ (0 < qty it)%Z
      /\ lt_zero (unit_price it) = false
      /\ In (category it) ["book"; "food"; "electronics"; "other"]%string.
Proof.
  unfold Spec.item_problems, in_tuple.
  assert (Hmem : existsb (String.eqb (category it))
                   ["book"; "food"; "electronics"; "other"]%string = true
                 <-> In (category it) ["book"; "food"; "electronics"; "other"]%string).
  { rewrite existsb_exists. split.
    - intros (x & Hin & Hx). apply String.eqb_eq in Hx. now subst x.
    - intros Hin. exists (category it). split; [exact Hin | apply String.eqb_refl]. }
  destruct (String.eqb_spec (sku it) "") as [Hs | Hs];
    destruct (Z.leb_spec (qty it) 0) as [Hq | Hq];
    destruct (lt_zero (unit_price it));
    destruct (existsb (String.eqb (category it)) _);
    simpl; split; intros Hall; try discriminate;
    try (destruct Hall as (Ha & Hb & Hc & Hd); try congruence; try lia;
         apply Hmem in Hd; discriminate).
  repeat split; auto. now apply Hmem.
Qed.

Lemma flat_map_nil {A B} (f : A -> list B) (l : list A) :
  flat_map f l = [] <-> Forall (fun x => f x = []) l.
Proof.
  induction l as [| x l IH]; simpl.
  - split; auto.
  - split.
    + intros H. apply app_eq_nil in H. destruct H as [Hx Hl].
      constructor; [exact Hx | now apply IH].
    + intros H. inversion H as [| ? ? Hx Hl]; subst.
      rewrite Hx. simpl. now apply IH.
Qed.

Lemma item_problems_length (it : LineItem) :
  (List.length (Spec.item_problems it) <= 4)%nat.
Proof.
  unfold Spec.item_problems.
  destruct (String.eqb (sku it) ""), (qty it <=? 0)%Z,
    (lt_zero (unit_price it)), (in_tuple (category it) _); simpl; lia.
Qed.

Lemma validate_nil_iff (inv : Invoice) :
  _validate (Some inv) = []
  <-> invoice_id inv <> ""%string
      /\ customer_id inv <> ""%string
      /\ items inv <> []
      /\ Forall (fun it =>
                   sku it <> ""%string
                   /\ (0 < qty it)%Z
                   /\ lt_zero (unit_price it) = false
                   /\ In (category it) ["book"; "food"; "electronics"; "other"]%string)
           (items inv).
Proof.
  rewrite validate_spec. split.
  - intros H. apply app_eq_nil in H. destruct H as [Hh Hi].
    apply header_problems_nil in Hh. destruct Hh as (H1 & H2 & H3).
    repeat split; auto.
    apply flat_map_nil in Hi. revert Hi. apply Forall_impl.
    intros it Hit. now apply item_problems_nil in Hit.
  - intros (H1 & H2 & H3 & H4).
    assert (Hh : Spec.header_problems inv = []) by now apply header_problems_nil.
    rewrite Hh. simpl. apply flat_map_nil. revert H4. apply Forall_impl.
    intros it Hit. now apply item_problems_nil.
Qed.

End ValidationFacts.

(** X1.  [_validate] accepts an invoice exactly when its two identifiers are
    non-empty, it has at least one item, and every item has a non-empty sku,
    a positive quantity, a price that does not compare below zero, and one of
    the four categories. *)
Theorem validate_accepts_iff (inv : Invoice) :
  _validate (Some inv) = []
  <-> invoice_id inv <> ""%string
      /\ customer_id inv <> ""%string
      /\ items inv <> []
      /\ Forall (fun it =>
                   sku it <> ""%string
                   /\ (0 < qty it)%Z
                   /\ lt_zero (unit_price it) = false
                   /\ In (category it) ["book"; "food"; "electronics"; "other"]%string)
           (items inv).
Proof. exact (validate_nil_iff inv). Qed.

(** X2.  [_validate] reports at most three problems about the invoice itself
    and at most four per item; a missing invoice gets exactly one. *)
Theorem validate_problem_count (inv : option Invoice) :
  match inv with
  | None => _validate inv = ["Invoice is missing"%string]
  | Some i =>
      (List.length (_validate inv) <= 3 + 4 * List.length (items i))%nat
      /\ (items i <> [] ->
          (List.length (_validate inv) <= 2 + 4 * List.length (items i))%nat)
  end.
Proof.
  destruct inv as [i |]; [| reflexivity].
  rewrite validate_spec, length_app.
  assert (Hitems : (List.length (flat_map Spec.item_problems (items i))
                    <= 4 * List.length (items i))%nat).
  { induction (items i) as [| it rest IH]; simpl; [lia |].
    rewrite length_app. pose proof (item_problems_length it). lia. }
  unfold Spec.header_problems.
  destruct (String.eqb (invoice_id i) ""), (String.eqb (customer_id i) ""),
    (items i) eqn:Hits; simpl in *; split; try lia; intros; try congruence; lia.
Qed.

(** *** Subtotal and fragile fee *)

(** X3.  [_calculate_subtotal_and_fragile_fee] returns a pair exactly when
    every conversion the loop makes succeeds: for each item the product
    [unit_price * qty] when the price is an [int], the quantity when the
    price is a [float], and the quantity again when the item is fragile.
    Otherwise it raises [OverflowError], and it raises nothing else.  So an
    [int] price 10 on quantity 2^1023 overflows although the quantity
    converts, and an [int] price 0 on quantity 2^1024 gives (0.0, 0.0)
    although the quantity does not. *)
Theorem subtotal_returns_iff (its : list LineItem) :
  ((exists subtotal fragile_fee,
      _calculate_subtotal_and_fragile_fee its = Return (subtotal, fragile_fee))
   <-> Forall (fun it =>
                 match unit_price it with
                 | PyInt p => exists q, float_of_int (p * qty it) = Return q
                 | PyFloat _ => exists q, float_of_int (qty it) = Return q
                 end
                 /\ (fragile it = true -> exists q, float_of_int (qty it) = Return q))
         its)
  /\ (forall e,
        _calculate_subtotal_and_fragile_fee its = Raise e ->
        e = OverflowError /\ ~ amounts_convert its)
  /\ (~ amounts_convert its ->
      _calculate_subtotal_and_fragile_fee its = Raise OverflowError)
  /\ (float_of_int (2 ^ 1023) = Return 0x1p+1023%float
      /\ _calculate_subtotal_and_fragile_fee
           (items Examples.int_price_overflow_invoice) = Raise OverflowError)
  /\ (float_of_int (2 ^ 1024) = Raise OverflowError
      /\ _calculate_subtotal_and_fragile_fee
           (items Examples.zero_price_invoice) = Return (0, 0)%float).
Proof.
  unfold _calculate_subtotal_and_fragile_fee.
  split; [split |]; [| | split; [| split; [| split]]].
  - intros (s & f & H). eapply subtotal_loop_converts; exact H.
  - intros Hq. apply subtotal_loop_returns; exact Hq.
  - intros e He. split; [eapply subtotal_loop_raises; exact He |].
    intros Hq. destruct (subtotal_loop_returns _ Hq 0%float 0%float) as (s & f & H).
    congruence.
  - intros Hn.
    destruct (subtotal_loop its 0 0) as [[s f] | e] eqn:H.
    + exfalso. apply Hn. eapply subtotal_loop_converts; exact H.
    + apply subtotal_loop_raises in H. now subst e.
  - split; vm_compute; reflexivity.
  - split; vm_compute; reflexivity.
Qed.

Section FragileFee.

Lemma add_number_returns_any (x x' : float) (b : number) (y : float) :
  add_number x b = Return y -> exists y', add_number x' b = Return y'.
Proof.
  destruct b as [m | f]; simpl; [| eauto].
  destruct (float_of_int m) as [q |]; simpl; [eauto | discriminate].
Qed.

Lemma subtotal_loop_fragile_only (its : list LineItem) :
  forall s0 f0 s f s0',
    subtotal_loop its s0 f0 = Return (s, f) ->
    exists s', subtotal_loop (filter fragile its) s0' f0 = Return (s', f).
Proof.
  induction its as [| it rest IH]; intros s0 f0 s f s0'.
  - simpl. intros H. injection H as _ <-. eauto.
  - cbn [filter]. cbn -[mul_int add_number]. intros H.
    destruct (mul_int (unit_price it) (qty it)) as [amount |] eqn:Hm;
      cbn -[mul_int add_number] in H; [| discriminate].
    destruct (add_number s0 amount) as [s1 |] eqn:Ha;
      cbn -[mul_int add_number] in H; [| discriminate].
    destruct (fragile it) eqn:Hf.
    + destruct (mul_int (PyFloat 5.0) (qty it)) as [handling |] eqn:Hh;
        cbn -[mul_int add_number] in H; [| discriminate].
      destruct (add_number f0 handling) as [f1 |] eqn:Hf1;
        cbn -[mul_int add_number] in H; [| discriminate].
      destruct (add_number_returns_any s0 s0' amount s1 Ha) as [s1' Ha'].
      cbn -[mul_int add_number].
      rewrite Hm. cbn -[mul_int add_number].
      rewrite Ha'. cbn -[mul_int add_number].
      rewrite Hf, Hh. cbn -[mul_int add_number].
      rewrite Hf1. cbn -[mul_int add_number].
      eapply IH; exact H.
    + eapply IH; exact H.
Qed.

Lemma subtotal_loop_no_fragile (its : list LineItem) :
  forall s0 f0 s f,
    existsb fragile its = false ->
    subtotal_loop its s0 f0 = Return (s, f) -> f = f0.
Proof.
  induction its as [| it rest IH]; intros s0 f0 s f.
  - simpl. intros _ H. now injection H as _ <-.
  - cbn [existsb]. cbn -[mul_int add_number].
    intros Hex. apply orb_false_iff in Hex. destruct Hex as [Hf Hrest].
    rewrite Hf.
    destruct (mul_int (unit_price it) (qty it)) as [amount |];
      cbn -[mul_int add_number]; [| discriminate].
    destruct (add_number s0 amount) as [s1 |];
      cbn -[mul_int add_number]; [| discriminate].
    now apply IH.
Qed.

Lemma subtotal_loop_app (a b : list LineItem) :
  forall s0 f0,
    subtotal_loop (a ++ b) s0 f0
    = ('(s, f) <- subtotal_loop a s0 f0 ;; subtotal_loop b s f).
Proof.
  induction a as [| it rest IH]; intros s0 f0; [reflexivity |].
  cbn [app]. cbn -[mul_int add_number].
  destruct (mul_int (unit_price it) (qty it)) as [amount |];
    cbn -[mul_int add_number]; [| reflexivity].
  destruct (add_number s0 amount) as [s1 |];
    cbn -[mul_int add_number]; [| reflexivity].
  destruct (fragile it); [| apply IH].
  destruct (mul_int (PyFloat 5.0) (qty it)) as [handling |];
    cbn -[mul_int add_number]; [| reflexivity].
  destruct (add_number f0 handling) as [f1 |];
    cbn -[mul_int add_number]; [| reflexivity].
  apply IH.
Qed.

End FragileFee.

(** X4.  The fragile fee comes from the fragile items alone: it is the fee
    of the list with the other items removed, and it is exactly 0.0 when no
    item is fragile. *)
Theorem fragile_fee_from_fragile_items (its : list LineItem) (subtotal fragile_fee : float) :
  _calculate_subtotal_and_fragile_fee its = Return (subtotal, fragile_fee) ->
  (exists subtotal',
     _calculate_subtotal_and_fragile_fee (filter fragile its)
     = Return (subtotal', fragile_fee))
  /\ (existsb fragile its = false -> fragile_fee = 0%float).
Proof.
  unfold _calculate_subtotal_and_fragile_fee. intros H. split.
  - eapply subtotal_loop_fragile_only; exact H.
  - intros Hex. eapply subtotal_loop_no_fragile; eassumption.
Qed.

Lemma fragile_fee_from_fragile_items_witness :
  (_calculate_subtotal_and_fragile_fee Examples.mixed_items = Return (554, 10)%float
   /\ filter fragile Examples.mixed_items
      = [mkLineItem "SKU-2" "electronics" 250%float 2 true]
   /\ exists subtotal',
        _calculate_subtotal_and_fragile_fee (filter fragile Examples.mixed_items)
        = Return (subtotal', 10%float))
  /\ (existsb fragile Examples.sturdy_items = false
      /\ forall subtotal fragile_fee,
           _calculate_subtotal_and_fragile_fee Examples.sturdy_items
           = Return (subtotal, fragile_fee) ->
           fragile_fee = 0%float).
Proof.
  split.
  - split; [reflexivity |]. split; [reflexivity |].
    exact (proj1 (fragile_fee_from_fragile_items
                    Examples.mixed_items 554%float 10%float eq_refl)).
  - split; [reflexivity |].
    intros subtotal fragile_fee H.
    exact (proj2 (fragile_fee_from_fragile_items
                    Examples.sturdy_items subtotal fragile_fee H) eq_refl).
Defined.

(** X5.  The accumulation runs left to right: the result for [a ++ b] is the
    loop over [b] started from the sums of [a], and an overflow in [a] stops
    it before [b] is read. *)
Theorem subtotal_of_concatenation (a b : list LineItem) :
  _calculate_subtotal_and_fragile_fee (a ++ b)
  = match _calculate_subtotal_and_fragile_fee a with
    | Return (subtotal, fragile_fee) => subtotal_loop b subtotal fragile_fee
    | Raise e => Raise e
    end.
Proof.
  unfold _calculate_subtotal_and_fragile_fee. rewrite subtotal_loop_app.
  unfold bind. destruct (subtotal_loop a 0 0) as [[s f] | e]; reflexivity.
Qed.

Section SubtotalSign.

Lemma mul_int_not_negative (a : number) (n : Z) (r : number) :
  lt_zero a = false -> (0 < n)%Z -> mul_int a n = Return r -> lt_zero r = false.
Proof.
  destruct a as [m | f]; simpl; intros Ha Hn.
  - intros H. injection H as <-. simpl.
    apply Z.ltb_ge in Ha. apply Z.ltb_ge. nia.
  - destruct (float_of_int n) as [q |] eqn:Hq; simpl; [| discriminate].
    intros H. injection H as <-. simpl.
    apply mul_not_negative; [exact Ha |].
    eapply float_of_int_not_negative; [| exact Hq]. lia.
Qed.

Lemma add_number_not_negative (x : float) (b : number) (y : float) :
  not_negative x -> lt_zero b = false -> add_number x b = Return y ->
  not_negative y.
Proof.
  destruct b as [m | f]; simpl; intros Hx Hb.
  - destruct (float_of_int m) as [q |] eqn:Hq; simpl; [| discriminate].
    intros H. injection H as <-.
    apply add_not_negative; [exact Hx |].
    eapply float_of_int_not_negative; [| exact Hq]. now apply Z.ltb_ge.
  - intros H. injection H as <-. now apply add_not_negative.
Qed.

Lemma subtotal_loop_not_negative (its : list LineItem) :
  Forall (fun it => lt_zero (unit_price it) = false /\ (0 < qty it)%Z) its ->
  forall s0 f0 s f,
    not_negative s0 -> not_negative f0 ->
    subtotal_loop its s0 f0 = Return (s, f) ->
    not_negative s /\ not_negative f.
Proof.
  induction 1 as [| it rest [Hp Hq] _ IH]; intros s0 f0 s f Hs0 Hf0.
  - simpl. intros H. injection H as <- <-. auto.
  - cbn -[mul_int add_number].
    destruct (mul_int (unit_price it) (qty it)) as [amount |] eqn:Hm;
      cbn -[mul_int add_number]; [| discriminate].
    destruct (add_number s0 amount) as [s1 |] eqn:Ha;
      cbn -[mul_int add_number]; [| discriminate].
    assert (Hs1 : not_negative s1).
    { eapply add_number_not_negative; [exact Hs0 | | exact Ha].
      eapply mul_int_not_negative; [exact Hp | exact Hq | exact Hm]. }
    destruct (fragile it); [| now apply IH].
    destruct (mul_int (PyFloat 5.0) (qty it)) as [handling |] eqn:Hh;
      cbn -[mul_int add_number]; [| discriminate].
    destruct (add_number f0 handling) as [f1 |] eqn:Hf1;
      cbn -[mul_int add_number]; [| discriminate].
    apply IH; [exact Hs1 |].
    eapply add_number_not_negative; [exact Hf0 | | exact Hf1].
    eapply mul_int_not_negative; [| exact Hq | exact Hh]. reflexivity.
Qed.

Lemma rate_not_negative (d : dict float) (k : string) (rate : float) :
  Forall (fun entry => not_negative (snd entry)) d ->
  dict_lookup d k = Some rate -> not_negative rate.
Proof.
  induction 1 as [| [k' v] rest Hv _ IH]; simpl; [discriminate |].
  destruct (String.eqb k k'); [| exact IH].
  intros H. now injection H as <-.
Qed.

Lemma membership_rates_not_negative :
  Forall (fun entry => not_negative (snd entry)) MEMBERSHIP_DISCOUNTS.
Proof. repeat constructor. Qed.

Lemma coupon_rates_not_negative :
  Forall (fun entry => not_negative (snd entry)) COUPON_RATES.
Proof. repeat constructor. Qed.

Lemma tax_rates_not_negative :
  Forall (fun entry => not_negative (snd entry)) TAX_RATES.
Proof. repeat constructor. Qed.

Lemma discount_of_not_negative (inv : Invoice) (subtotal : float) :
  not_negative subtotal -> not_negative (discount_of inv subtotal).
Proof.
  intros Hs.
  assert (Hm : not_negative (Spec.membership_discount (membership inv) subtotal)).
  { unfold Spec.membership_discount.
    destruct (dict_lookup MEMBERSHIP_DISCOUNTS (membership inv)) as [rate |] eqn:Hr.
    - apply add_not_negative; [reflexivity |].
      apply mul_not_negative; [exact Hs |].
      eapply rate_not_negative; [apply membership_rates_not_negative | exact Hr].
    - destruct (3000 <? subtotal)%float; reflexivity. }
  unfold discount_of. destruct (coupon_code inv) as [code |]; [| exact Hm].
  unfold Spec.add_coupon.
  destruct (dict_lookup COUPON_RATES code) as [rate |] eqn:Hr; [| exact Hm].
  apply add_not_negative; [exact Hm |].
  apply mul_not_negative; [exact Hs |].
  eapply rate_not_negative; [apply coupon_rates_not_negative | exact Hr].
Qed.

Lemma shipping_values (c : string) (subtotal : float) :
  In (Spec.shipping c subtotal) [0; 8; 15; 25; 60; 600]%float.
Proof.
  unfold Spec.shipping, Spec.us_shipping, Spec.shipping_entry.
  destruct (String.eqb_spec c "US") as [-> | Hus].
  - simpl. destruct (subtotal <? 100)%float; simpl; [tauto |].
    destruct (subtotal <? 300)%float; simpl; tauto.
  - unfold SHIPPING_CONFIG. simpl.
    destruct (String.eqb c "TH"); simpl.
    { destruct (subtotal <? 500)%float; simpl; tauto. }
    destruct (String.eqb c "JP"); simpl.
    { destruct (subtotal <? 4000)%float; simpl; tauto. }
    destruct (String.eqb_spec c "US"); [contradiction |].
    destruct (String.eqb c "DEFAULT"); simpl;
      destruct (subtotal <? 200)%float; simpl; tauto.
Qed.

End SubtotalSign.

(** X6.  On an invoice that passed validation, no amount that enters the
    total with a plus sign is negative, and neither is the discount: the
    subtotal, the fragile fee, the shipping fee and the discount never
    compare below zero. *)
Theorem valid_amounts_not_negative (inv : Invoice) (subtotal fragile_fee : float) :
  _validate (Some inv) = [] ->
  _calculate_subtotal_and_fragile_fee (items inv) = Return (subtotal, fragile_fee) ->
  (subtotal <? 0)%float = false
  /\ (fragile_fee <? 0)%float = false
  /\ exists shipping discount w,
       _calculate_shipping (country inv) subtotal = Return shipping
       /\ _calculate_discount inv subtotal [] = Return (discount, w)
       /\ (shipping <? 0)%float = false
       /\ (discount <? 0)%float = false.
Proof.
  intros Hvalid Hs.
  apply validate_nil_iff in Hvalid. destruct Hvalid as (_ & _ & _ & Hitems).
  assert (Hsf : not_negative subtotal /\ not_negative fragile_fee).
  { eapply (subtotal_loop_not_negative (items inv)); [| | | exact Hs];
      [| reflexivity | reflexivity].
    revert Hitems. apply Forall_impl. intros it (_ & Hq & Hp & _). now split. }
  destruct Hsf as [Hsub Hfee].
  split; [exact Hsub |]. split; [exact Hfee |].
  exists (Spec.shipping (country inv) subtotal), (discount_of inv subtotal),
    ([] ++ coupon_warnings_of inv).
  split; [apply calculate_shipping_spec |].
  split; [apply calculate_discount_spec |].
  split; [| now apply discount_of_not_negative].
  pose proof (shipping_values (country inv) subtotal) as Hv. simpl in Hv.
  destruct Hv as [<- | [<- | [<- | [<- | [<- | [<- | []]]]]]]; reflexivity.
Qed.

Lemma valid_amounts_not_negative_witness :
  (5000 <? 0)%float = false
  /\ (0 <? 0)%float = false
  /\ exists shipping discount w,
       _calculate_shipping (country Examples.scenario) 5000 = Return shipping
       /\ _calculate_discount Examples.scenario 5000 [] = Return (discount, w)
       /\ (shipping <? 0)%float = false
       /\ (discount <? 0)%float = false.
Proof.
  apply (valid_amounts_not_negative Examples.scenario 5000%float 0%float);
    reflexivity.
Defined.

(** X7.  [_calculate_discount] never raises, whatever the subtotal; and on a
    subtotal that is not negative the discount it returns is not negative
    either. *)
Theorem discount_not_negative (inv : Invoice) (subtotal : float) (w : list string) :
  exists discount w',
    _calculate_discount inv subtotal w = Return (discount, w')
    /\ ((subtotal <? 0)%float = false -> (discount <? 0)%float = false).
Proof.
  exists (discount_of inv subtotal), (w ++ coupon_warnings_of inv).
  split; [apply calculate_discount_spec |].
  intros Hs. now apply discount_of_not_negative.
Qed.

Lemma discount_not_negative_witness :
  (exists discount w',
     _calculate_discount Examples.mixed_invoice 554 [] = Return (discount, w')
     /\ (discount <? 0)%float = false)
  /\ (exists discount w',
        _calculate_discount Examples.mixed_invoice (-100) [] = Return (discount, w')).
Proof.
  split.
  - destruct (discount_not_negative Examples.mixed_invoice 554%float [])
      as (d & w' & Hd & Hsign).
    exists d, w'. split; [exact Hd | apply Hsign; reflexivity].
  - destruct (discount_not_negative Examples.mixed_invoice (-100)%float [])
      as (d & w' & Hd & _).
    exists d, w'. exact Hd.
Defined.

(** X8.  [_calculate_tax] never raises, whatever the country and the amount;
    its rate is one of the four of the table; and the tax on an amount that
    is not negative is not negative. *)
Theorem tax_not_negative (c : string) (taxable_amount : float) :
  exists rate,
    _calculate_tax c taxable_amount = Return (taxable_amount * rate)%float
    /\ In rate [0.07; 0.10; 0.08; 0.05]%float
    /\ ((taxable_amount <? 0)%float = false ->
        (taxable_amount * rate <? 0)%float = false).
Proof.
  exists (Spec.tax_rate c).
  split; [apply calculate_tax_spec |].
  assert (Hin : In (Spec.tax_rate c) [0.07; 0.10; 0.08; 0.05]%float).
  { unfold Spec.tax_rate, TAX_RATES. simpl.
    destruct (String.eqb c "TH"); [simpl; tauto |].
    destruct (String.eqb c "JP"); [simpl; tauto |].
    destruct (String.eqb c "US"); [simpl; tauto |].
    destruct (String.eqb c "DEFAULT"); simpl; tauto. }
  split; [exact Hin |].
  intros Ht. apply mul_not_negative; [exact Ht |].
  simpl in Hin. destruct Hin as [<- | [<- | [<- | [<- | []]]]]; reflexivity.
Qed.

Lemma tax_not_negative_witness :
  (exists rate,
     _calculate_tax "FR" 100 = Return (100 * rate)%float
     /\ In rate [0.07; 0.10; 0.08; 0.05]%float
     /\ (100 * rate <? 0)%float = false)
  /\ (exists rate, _calculate_tax "JP" (-100) = Return (-100 * rate)%float).
Proof.
  split.
  - destruct (tax_not_negative "FR" 100%float) as (rate & Ht & Hin & Hsign).
    exists rate. split; [exact Ht |]. split; [exact Hin | apply Hsign; reflexivity].
  - destruct (tax_not_negative "JP" (-100)%float) as (rate & Ht & _).
    exists rate. exact Ht.
Defined.

(** *** Shipping *)

Section ShippingTables.

Lemma calculate_shipping_with_agree (config config' : dict (float * float))
  (tiers : list (float * float)) (c : string) (subtotal : float) :
  (forall k, k <> "US"%string -> dict_lookup config k = dict_lookup config' k) ->
  calculate_shipping_with config tiers c subtotal
  = calculate_shipping_with config' tiers c subtotal.
Proof.
  intros Hagree. unfold calculate_shipping_with.
  destruct (String.eqb_spec c "US") as [| Hc]; [reflexivity |].
  unfold dict_getitem, dict_get.
  rewrite (Hagree "DEFAULT"%string) by discriminate.
  rewrite (Hagree c Hc). reflexivity.
Qed.

End ShippingTables.

(** X9.  [_calculate_shipping] never raises, for any country string; the fee
    is one of 0, 8, 15, 25, 60 and 600: one of 0, 8 and 15 for "US" and one of
    0, 25, 60 and 600 otherwise.  The "US" entry of the shipping table is
    never used: two tables that differ at the key "US" only give the same
    fee for every country, so the entry can be replaced or removed. *)
Theorem shipping_fee_range (c : string) (subtotal : float) :
  (exists fee,
     _calculate_shipping c subtotal = Return fee
     /\ In fee [0; 8; 15; 25; 60; 600]%float
     /\ (c = "US"%string -> In fee [0; 8; 15]%float)
     /\ (c <> "US"%string -> In fee [0; 25; 60; 600]%float))
  /\ _calculate_shipping c subtotal
     = calculate_shipping_with SHIPPING_CONFIG US_SHIPPING_TIERS c subtotal
  /\ (forall config config' tiers,
        (forall k, k <> "US"%string -> dict_lookup config k = dict_lookup config' k) ->
        calculate_shipping_with config tiers c subtotal
        = calculate_shipping_with config' tiers c subtotal)
  /\ (forall entry,
        calculate_shipping_with
          [ ("TH"%string, (500, 60)%float); ("JP"%string, (4000, 600)%float);
            ("US"%string, entry); ("DEFAULT"%string, (200, 25)%float) ]
          US_SHIPPING_TIERS c subtotal
        = _calculate_shipping c subtotal)
  /\ calculate_shipping_with
       [ ("TH"%string, (500, 60)%float); ("JP"%string, (4000, 600)%float);
         ("DEFAULT"%string, (200, 25)%float) ]
       US_SHIPPING_TIERS c subtotal
     = _calculate_shipping c subtotal.
Proof.
  split; [| split; [reflexivity | split; [| split]]].
  - exists (Spec.shipping c subtotal).
    split; [apply calculate_shipping_spec |].
    split; [apply shipping_values |].
    unfold Spec.shipping, Spec.us_shipping, Spec.shipping_entry. split.
    + intros ->. simpl. destruct (subtotal <? 100)%float; simpl; [tauto |].
      destruct (subtotal <? 300)%float; simpl; tauto.
    + intros Hus. destruct (String.eqb_spec c "US") as [| _]; [contradiction |].
      unfold SHIPPING_CONFIG. simpl.
      destruct (String.eqb c "TH"); simpl.
      { destruct (subtotal <? 500)%float; simpl; tauto. }
      destruct (String.eqb c "JP"); simpl.
      { destruct (subtotal <? 4000)%float; simpl; tauto. }
      destruct (String.eqb_spec c "US"); [contradiction |].
      destruct (String.eqb c "DEFAULT"); simpl;
        destruct (subtotal <? 200)%float; simpl; tauto.
  - intros config config' tiers. apply calculate_shipping_with_agree.
  - intros entry.
    change (_calculate_shipping c subtotal)
      with (calculate_shipping_with SHIPPING_CONFIG US_SHIPPING_TIERS c subtotal).
    apply calculate_shipping_with_agree.
    intros k Hk. unfold SHIPPING_CONFIG. simpl.
    destruct (String.eqb k "TH"); [reflexivity |].
    destruct (String.eqb k "JP"); [reflexivity |].
    destruct (String.eqb_spec k "US"); [contradiction | reflexivity].
  - change (_calculate_shipping c subtotal)
      with (calculate_shipping_with SHIPPING_CONFIG US_SHIPPING_TIERS c subtotal).
    apply calculate_shipping_with_agree.
    intros k Hk. unfold SHIPPING_CONFIG. simpl.
    destruct (String.eqb k "TH"); [reflexivity |].
    destruct (String.eqb k "JP"); [reflexivity |].
    destruct (String.eqb_spec k "US"); [contradiction | reflexivity].
Qed.

(** X10.  A larger subtotal never pays more shipping: if [s1 <= s2] then the
    fee for [s2] is at most the fee for [s1], in every country. *)
Theorem shipping_fee_antitone (c : string) (s1 s2 : float) :
  (s1 <=? s2)%float = true ->
  exists fee1 fee2,
    _calculate_shipping c s1 = Return fee1
    /\ _calculate_shipping c s2 = Return fee2
    /\ (fee2 <=? fee1)%float = true.
Proof.
  intros Hle.
  exists (Spec.shipping c s1), (Spec.shipping c s2).
  split; [apply calculate_shipping_spec |].
  split; [apply calculate_shipping_spec |].
  assert (Hone : forall threshold fee,
             (0 <=? fee)%float = true -> (fee <=? fee)%float = true ->
             ((if (s2 <? threshold)%float then fee else 0%float)
              <=? (if (s1 <? threshold)%float then fee else 0%float))%float = true).
  { intros threshold fee H0 Hrefl.
    destruct (s2 <? threshold)%float eqn:H2.
    - now rewrite (leb_ltb_trans _ _ _ Hle H2).
    - destruct (s1 <? threshold)%float; [exact H0 | reflexivity]. }
  unfold Spec.shipping, Spec.us_shipping, Spec.shipping_entry.
  destruct (String.eqb c "US").
  - simpl.
    destruct (s2 <? 100)%float eqn:H2a.
    { now rewrite (leb_ltb_trans _ _ _ Hle H2a). }
    destruct (s2 <? 300)%float eqn:H2b.
    { rewrite (leb_ltb_trans _ _ _ Hle H2b).
      destruct (s1 <? 100)%float; reflexivity. }
    destruct (s1 <? 100)%float; [reflexivity |].
    destruct (s1 <? 300)%float; reflexivity.
  - unfold SHIPPING_CONFIG. simpl.
    destruct (String.eqb c "TH"); [apply Hone; reflexivity |].
    destruct (String.eqb c "JP"); [apply Hone; reflexivity |].
    destruct (String.eqb c "US"); [apply Hone; reflexivity |].
    destruct (String.eqb c "DEFAULT"); apply Hone; reflexivity.
Qed.

Lemma shipping_fee_antitone_witness :
  exists fee1 fee2,
    _calculate_shipping "US" 50 = Return fee1
    /\ _calculate_shipping "US" 150 = Return fee2
    /\ (fee2 <=? fee1)%float = true.
Proof.
  apply (shipping_fee_antitone "US" 50%float 150%float). reflexivity.
Defined.

(** *** Discount and coupon *)

Section StripFacts.

Lemma rstrip_cons (c : ascii) (s : string) :
  rstrip (String c s)
  = match rstrip s with
    | EmptyString => if is_space c then EmptyString else String c EmptyString
    | String c' r => String c (String c' r)
    end.
Proof. reflexivity. Qed.

Lemma rstrip_idempotent (s : string) : rstrip (rstrip s) = rstrip s.
Proof.
  induction s as [| c s' IH]; [reflexivity |].
  rewrite rstrip_cons.
  destruct (rstrip s') as [| c' r] eqn:Hr.
  - destruct (is_space c) eqn:Hc; [reflexivity |].
    rewrite rstrip_cons. simpl. now rewrite Hc.
  - rewrite rstrip_cons, IH. reflexivity.
Qed.

Lemma rstrip_keeps_head (c : ascii) (s : string) :
  is_space c = false -> exists r, rstrip (String c s) = String c r.
Proof.
  intros Hc. simpl. destruct (rstrip s) as [| c' r]; rewrite ?Hc; eauto.
Qed.

Lemma lstrip_head (s : string) :
  lstrip s = ""%string
  \/ exists c r, lstrip s = String c r /\ is_space c = false.
Proof.
  induction s as [| c s' IH]; simpl; [now left |].
  destruct (is_space c) eqn:Hc; [exact IH |].
  right. eauto.
Qed.

Lemma strip_idempotent (s : string) : strip (strip s) = strip s.
Proof.
  unfold strip.
  destruct (lstrip_head s) as [-> | (c & r & -> & Hc)]; [reflexivity |].
  destruct (rstrip_keeps_head c r Hc) as [r' Hr].
  rewrite Hr. cbn [lstrip]. rewrite Hc, <- Hr.
  apply rstrip_idempotent.
Qed.

End StripFacts.

(** X11.  A coupon is matched on its stripped code only: two invoices with
    the same membership whose non-empty coupons strip to the same code get
    the same discount and the same warnings; in particular a coupon and its
    stripped form behave alike whenever the stripped form is not empty. *)
Theorem coupon_whitespace_insensitive (a b : Invoice) (ca cb : string)
  (subtotal : float) (w : list string) :
  membership a = membership b ->
  coupon a = Some ca -> coupon b = Some cb ->
  ca <> ""%string -> cb <> ""%string ->
  strip ca = strip cb ->
  _calculate_discount a subtotal w = _calculate_discount b subtotal w
  /\ (strip ca <> ""%string ->
      forall a', membership a' = membership a -> coupon a' = Some (strip ca) ->
                 _calculate_discount a' subtotal w = _calculate_discount a subtotal w).
Proof.
  intros Hm Ha Hb Hna Hnb Hstrip.
  assert (Hcode : forall i c, coupon i = Some c -> c <> ""%string ->
                              coupon_code i = Some (strip c)).
  { intros i c Hi Hc. unfold coupon_code. rewrite Hi.
    destruct c; [congruence | reflexivity]. }
  split.
  - rewrite !calculate_discount_spec.
    unfold discount_of, coupon_warnings_of.
    rewrite (Hcode a ca Ha Hna), (Hcode b cb Hb Hnb), Hm, Hstrip. reflexivity.
  - intros Hne a' Hm' Ha'.
    rewrite !calculate_discount_spec.
    unfold discount_of, coupon_warnings_of.
    rewrite (Hcode a ca Ha Hna), (Hcode a' _ Ha' Hne), Hm', strip_idempotent.
    reflexivity.
Qed.

Lemma coupon_whitespace_insensitive_witness :
  _calculate_discount
    (mkInvoice "INV-7" "CUST-1" "TH" "gold" (Some " VIP20 "%string) []) 1000 []
  = _calculate_discount
      (mkInvoice "INV-8" "CUST-2" "JP" "gold" (Some "VIP20"%string) []) 1000 [].
Proof.
  refine (proj1 (coupon_whitespace_insensitive
                   (mkInvoice "INV-7" "CUST-1" "TH" "gold" (Some " VIP20 "%string) [])
                   (mkInvoice "INV-8" "CUST-2" "JP" "gold" (Some "VIP20"%string) [])
                   " VIP20 " "VIP20" 1000%float []
                   eq_refl eq_refl eq_refl _ _ eq_refl));
    discriminate.
Defined.

(** X12.  A coupon that is not empty but consists of whitespace only is an
    unknown coupon: it adds nothing to the discount and the warning is
    appended. *)
Theorem blank_coupon_is_unknown (inv : Invoice) (c : string)
  (subtotal : float) (w : list string) :
  coupon inv = Some c -> c <> ""%string -> strip c = ""%string ->
  _calculate_discount inv subtotal w
  = Return (Spec.membership_discount (membership inv) subtotal,
            w ++ ["Unknown coupon"%string]).
Proof.
  intros Hc Hne Hstrip. rewrite calculate_discount_spec.
  unfold discount_of, coupon_warnings_of, coupon_code. rewrite Hc.
  destruct c; [congruence |]. cbn [truthy_str]. rewrite Hstrip. reflexivity.
Qed.

Lemma blank_coupon_is_unknown_witness :
  _calculate_discount
    (mkInvoice "INV-9" "CUST-1" "TH" "" (Some "   "%string) []) 100 []
  = Return (Spec.membership_discount "" 100, [] ++ ["Unknown coupon"%string]).
Proof.
  apply (blank_coupon_is_unknown
           (mkInvoice "INV-9" "CUST-1" "TH" "" (Some "   "%string) [])
           "   " 100%float []);
    try reflexivity; discriminate.
Defined.

(** X13.  [_calculate_discount] keeps the warnings it is handed, in order,
    and appends at most one, "Unknown coupon"; the discount and the appended
    warning do not depend on the warnings handed in. *)
Theorem discount_keeps_warnings (inv : Invoice) (subtotal : float) :
  exists discount added,
    (added = [] \/ added = ["Unknown coupon"%string])
    /\ forall w, _calculate_discount inv subtotal w = Return (discount, w ++ added).
Proof.
  exists (discount_of inv subtotal), (coupon_warnings_of inv).
  split; [apply coupon_warnings_cases |].
  intros w. apply calculate_discount_spec.
Qed.

(** *** [compute_total] *)

(** X14.  Every call of [compute_total] ends in one of three ways: the
    validation error after the validator alone has run; [OverflowError] out
    of the subtotal, before shipping, discount and tax are computed; or a
    result, after the five helpers have run in their fixed order.  A valid
    invoice is priced exactly when the subtotal step returns, that is when
    the conversions it makes succeed.  [compute_total] never raises
    [KeyError] or [AttributeError], and a missing invoice is rejected with
    "Invoice is missing". *)
Theorem compute_total_outcome (inv : option Invoice) :
  (exists o,
     compute_total inv = outcome_result o
     /\ compute_total_calls inv = outcome_calls o
     /\ match o with
        | Rejected msg =>
            _validate inv <> [] /\ msg = join "; " (_validate inv)
        | Overflowed =>
            exists i, inv = Some i /\ _validate inv = []
                      /\ _calculate_subtotal_and_fragile_fee (items i)
                         = Raise OverflowError
                      /\ ~ amounts_convert (items i)
        | Priced _ _ =>
            exists i, inv = Some i /\ _validate inv = []
                      /\ (exists subtotal fragile_fee,
                            _calculate_subtotal_and_fragile_fee (items i)
                            = Return (subtotal, fragile_fee))
                      /\ amounts_convert (items i)
        end)
  /\ (forall key, compute_total inv <> Raise (KeyError key))
  /\ compute_total inv <> Raise AttributeError
  /\ (inv = None -> compute_total inv = Raise (ValueError "Invoice is missing"))
  /\ compute_total (Some Examples.int_price_overflow_invoice) = Raise OverflowError
  /\ compute_total (Some Examples.zero_price_invoice) = Return (60%float, []).
Proof.
  assert (Hout : exists o,
     compute_total inv = outcome_result o
     /\ compute_total_calls inv = outcome_calls o
     /\ match o with
        | Rejected msg =>
            _validate inv <> [] /\ msg = join "; " (_validate inv)
        | Overflowed =>
            exists i, inv = Some i /\ _validate inv = []
                      /\ _calculate_subtotal_and_fragile_fee (items i)
                         = Raise OverflowError
                      /\ ~ amounts_convert (items i)
        | Priced _ _ =>
            exists i, inv = Some i /\ _validate inv = []
                      /\ (exists subtotal fragile_fee,
                            _calculate_subtotal_and_fragile_fee (items i)
                            = Return (subtotal, fragile_fee))
                      /\ amounts_convert (items i)
        end).
  { unfold compute_total, compute_total_calls.
    destruct (_validate inv) as [| p ps] eqn:Hv.
    - destruct inv as [i |]; [| discriminate Hv].
      rewrite (compute_total_traced_valid i Hv).
      destruct (_calculate_subtotal_and_fragile_fee (items i)) as [[s f] | e] eqn:Hs.
      + eexists (Priced _ _). repeat split. exists i.
        split; [reflexivity |]. split; [reflexivity |].
        split; [eauto |].
        eapply subtotal_loop_converts; exact Hs.
      + pose proof (subtotal_loop_raises _ _ _ _ Hs) as ->.
        exists Overflowed. repeat split. exists i.
        split; [reflexivity |]. split; [reflexivity |].
        split; [exact Hs |].
        intros Hq.
        destruct (subtotal_loop_returns _ Hq 0%float 0%float) as (s & f & H).
        unfold _calculate_subtotal_and_fragile_fee in Hs. congruence.
    - assert (Hne : _validate inv <> []) by (rewrite Hv; discriminate).
      rewrite (compute_total_traced_invalid inv Hne), Hv.
      eexists (Rejected _). repeat split. discriminate. }
  split; [exact Hout |].
  destruct Hout as (o & Hres & _ & _).
  split; [| split; [| split; [| split]]].
  - intros key. rewrite Hres. destruct o; discriminate.
  - rewrite Hres. destruct o; discriminate.
  - intros ->. reflexivity.
  - vm_compute. reflexivity.
  - vm_compute. reflexivity.
Qed.

Section NaNPrice.

Lemma add_number_nan (b : number) (y : float) :
  add_number nan b = Return y -> y = nan.
Proof.
  destruct b as [m | f]; simpl.
  - destruct (float_of_int m) as [q |]; simpl; [| discriminate].
    intros H. injection H as <-. apply add_nan_l.
  - intros H. injection H as <-. apply add_nan_l.
Qed.

Lemma subtotal_loop_nan (its : list LineItem) :
  forall f0 s f, subtotal_loop its nan f0 = Return (s, f) -> s = nan.
Proof.
  induction its as [| it rest IH]; intros f0 s f.
  - simpl. intros H. now injection H as <- _.
  - cbn -[mul_int add_number].
    destruct (mul_int (unit_price it) (qty it)) as [amount |];
      cbn -[mul_int add_number]; [| discriminate].
    destruct (add_number nan amount) as [s1 |] eqn:Ha;
      cbn -[mul_int add_number]; [| discriminate].
    apply add_number_nan in Ha. subst s1.
    destruct (fragile it); [| apply IH].
    destruct (mul_int (PyFloat 5.0) (qty it)) as [handling |];
      cbn -[mul_int add_number]; [| discriminate].
    destruct (add_number f0 handling) as [f1 |];
      cbn -[mul_int add_number]; [| discriminate].
    apply IH.
Qed.

Lemma subtotal_loop_nan_price (its : list LineItem) :
  forall s0 f0 s f,
    Exists (fun it => unit_price it = PyFloat nan) its ->
    subtotal_loop its s0 f0 = Return (s, f) -> s = nan.
Proof.
  induction its as [| it rest IH]; intros s0 f0 s f Hex.
  - inversion Hex.
  - cbn -[mul_int add_number].
    destruct (mul_int (unit_price it) (qty it)) as [amount |] eqn:Hm;
      cbn -[mul_int add_number]; [| discriminate].
    destruct (add_number s0 amount) as [s1 |] eqn:Ha;
      cbn -[mul_int add_number]; [| discriminate].
    inversion Hex as [? ? Hit | ? ? Hrest]; subst.
    + rewrite Hit in Hm. simpl in Hm.
      destruct (float_of_int (qty it)) as [q |]; simpl in Hm; [| discriminate].
      injection Hm as <-. rewrite mul_nan_l in Ha. simpl in Ha.
      injection Ha as <-. rewrite add_nan_r.
      destruct (fragile it); [| apply subtotal_loop_nan].
      destruct (mul_int (PyFloat 5.0) (qty it)) as [handling |];
        cbn -[mul_int add_number]; [| discriminate].
      destruct (add_number f0 handling) as [f1 |];
        cbn -[mul_int add_number]; [| discriminate].
      apply subtotal_loop_nan.
    + destruct (fragile it); [| now apply IH].
      destruct (mul_int (PyFloat 5.0) (qty it)) as [handling |];
        cbn -[mul_int add_number]; [| discriminate].
      destruct (add_number f0 handling) as [f1 |];
        cbn -[mul_int add_number]; [| discriminate].
      now apply IH.
Qed.

Lemma discount_of_nan (inv : Invoice) :
  discount_of inv nan = nan \/ discount_of inv nan = 0%float.
Proof.
  unfold discount_of, Spec.membership_discount, Spec.add_coupon.
  rewrite ltb_nan_r.
  destruct (dict_lookup MEMBERSHIP_DISCOUNTS (membership inv)) as [r |];
    rewrite ?mul_nan_l, ?add_nan_r;
    (destruct (coupon_code inv) as [code |]; [| auto]);
    (destruct (dict_lookup COUPON_RATES code) as [r' |]; [| auto]);
    rewrite ?mul_nan_l, ?add_nan_r; auto.
Qed.

Lemma total_of_nan (inv : Invoice) (fragile_fee : float) :
  total_of inv nan fragile_fee = 0%float.
Proof.
  unfold total_of.
  rewrite sub_nan_l, mul_nan_l, !add_nan_l, sub_nan_l.
  reflexivity.
Qed.

End NaNPrice.

(** X15.  A NaN price is not caught by validation ([nan < 0] is false), and
    an invoice holding one, valid and on which the subtotal step does not
    overflow, is priced at a total of exactly 0.0, without the upgrade
    warning. *)
Theorem nan_price_totals_zero (inv : Invoice) :
  _validate (Some inv) = [] ->
  amounts_convert (items inv) ->
  Exists (fun it => unit_price it = PyFloat nan) (items inv) ->
  exists w,
    compute_total (Some inv) = Return (0%float, w)
    /\ ~ In "Consider membership upgrade"%string w.
Proof.
  intros Hvalid Hq Hnan.
  destruct (subtotal_loop_returns _ Hq 0%float 0%float) as (s & f & Hs).
  pose proof (subtotal_loop_nan_price _ _ _ _ _ Hnan Hs) as ->.
  exists (coupon_warnings_of inv ++ Spec.upgrade_warning (membership inv) nan).
  split.
  - rewrite (compute_total_valid inv Hvalid).
    unfold _calculate_subtotal_and_fragile_fee. rewrite Hs. simpl.
    now rewrite total_of_nan.
  - rewrite upgrade_in_warnings, upgrade_warning_iff, ltb_nan_r.
    intros (H & _). discriminate H.
Qed.

Lemma nan_price_totals_zero_witness :
  exists w,
    compute_total
      (Some (mkInvoice "INV-10" "CUST-1" "TH" "gold" None
               [mkLineItem "SKU-1" "book" nan 2 true;
                mkLineItem "SKU-2" "food" (PyInt 10) 1 false]))
    = Return (0%float, w)
    /\ ~ In "Consider membership upgrade"%string w.
Proof.
  apply (nan_price_totals_zero
           (mkInvoice "INV-10" "CUST-1" "TH" "gold" None
              [mkLineItem "SKU-1" "book" nan 2 true;
               mkLineItem "SKU-2" "food" (PyInt 10) 1 false])).
  - reflexivity.
  - repeat (constructor;
            [split; [eexists; vm_compute; reflexivity
                    | intros _; eexists; vm_compute; reflexivity] |]).
    constructor.
  - left. reflexivity.
Defined.

(** X16.  Whenever the upgrade warning is returned, the membership part of
    the discount was the flat 20: a subtotal above 10000 is above 3000, and
    the membership is not in the table. *)
Theorem upgrade_warning_implies_flat_discount (inv : Invoice)
  (total : float) (w : list string) :
  compute_total (Some inv) = Return (total, w) ->
  In "Consider membership upgrade"%string w ->
  exists subtotal fragile_fee,
    _calculate_subtotal_and_fragile_fee (items inv) = Return (subtotal, fragile_fee)
    /\ (3000 <? subtotal)%float = true
    /\ dict_lookup MEMBERSHIP_DISCOUNTS (membership inv) = None
    /\ _calculate_discount inv subtotal []
       = Return (match coupon_code inv with
                 | Some code => Spec.add_coupon code subtotal (0 + 20)%float
                 | None => (0 + 20)%float
                 end,
                 coupon_warnings_of inv).
Proof.
  intros Hret Hin.
  apply compute_total_returns_inv in Hret.
  destruct Hret as (i & s & f & Hi & _ & Hs & _ & Hw).
  injection Hi as <-. subst w.
  apply upgrade_in_warnings, upgrade_warning_iff in Hin.
  destruct Hin as (H10 & Hg & Hp).
  assert (H3 : (3000 <? s)%float = true).
  { apply (ltb_trans 3000 10000 s); [reflexivity | exact H10]. }
  assert (Hnone : dict_lookup MEMBERSHIP_DISCOUNTS (membership inv) = None).
  { unfold MEMBERSHIP_DISCOUNTS. simpl.
    destruct (String.eqb_spec (membership inv) "gold"); [contradiction |].
    destruct (String.eqb_spec (membership inv) "platinum"); [contradiction |].
    reflexivity. }
  exists s, f. split; [exact Hs |]. split; [exact H3 |]. split; [exact Hnone |].
  rewrite calculate_discount_spec. cbn [app].
  unfold discount_of, Spec.membership_discount. now rewrite Hnone, H3.
Qed.

Lemma upgrade_warning_implies_flat_discount_witness :
  exists subtotal fragile_fee,
    _calculate_subtotal_and_fragile_fee (items Examples.unknown_coupon_invoice)
    = Return (subtotal, fragile_fee)
    /\ (3000 <? subtotal)%float = true
    /\ dict_lookup MEMBERSHIP_DISCOUNTS (membership Examples.unknown_coupon_invoice)
       = None
    /\ _calculate_discount Examples.unknown_coupon_invoice subtotal []
       = Return (match coupon_code Examples.unknown_coupon_invoice with
                 | Some code => Spec.add_coupon code subtotal (0 + 20)%float
                 | None => (0 + 20)%float
                 end,
                 coupon_warnings_of Examples.unknown_coupon_invoice).
Proof.
  apply (upgrade_warning_implies_flat_discount Examples.unknown_coupon_invoice
           21583.400000000001%float
           ["Unknown coupon"; "Consider membership upgrade"]%string).
  - reflexivity.
  - simpl. tauto.
Defined.

Section PricedFields.

Lemma subtotal_loop_priced_fields (a : list LineItem) :
  forall b s0 f0,
    map priced_fields a = map priced_fields b ->
    subtotal_loop a s0 f0 = subtotal_loop b s0 f0.
Proof.
  induction a as [| x a IH]; intros [| y b] s0 f0 Hmap; simpl in Hmap;
    try discriminate; [reflexivity |].
  unfold priced_fields in Hmap at 1 3.
  injection Hmap as Hp Hq Hf Hrest.
  cbn -[mul_int add_number]. rewrite Hp, Hq, Hf.
  destruct (mul_int (unit_price y) (qty y)) as [amount |];
    cbn -[mul_int add_number]; [| reflexivity].
  destruct (add_number s0 amount) as [s1 |];
    cbn -[mul_int add_number]; [| reflexivity].
  destruct (fragile y); [| now apply IH].
  destruct (mul_int (PyFloat 5.0) (qty y)) as [handling |];
    cbn -[mul_int add_number]; [| reflexivity].
  destruct (add_number f0 handling) as [f1 |];
    cbn -[mul_int add_number]; [| reflexivity].
  now apply IH.
Qed.

End PricedFields.

(** X17.  Pricing reads only the country, the membership, the coupon and,
    of each item, the price, the quantity and the fragile flag: two valid
    invoices that agree on these get the same result, whatever their
    identifiers, skus and categories. *)
Theorem pricing_ignores_identifiers (a b : Invoice) :
  _validate (Some a) = [] -> _validate (Some b) = [] ->
  pricing_inputs a = pricing_inputs b ->
  compute_total (Some a) = compute_total (Some b).
Proof.
  intros Ha Hb Heq.
  unfold pricing_inputs in Heq. injection Heq as Hc Hm Hcp Hits.
  rewrite (compute_total_valid a Ha), (compute_total_valid b Hb).
  unfold _calculate_subtotal_and_fragile_fee.
  rewrite (subtotal_loop_priced_fields _ _ _ _ Hits).
  unfold total_of, discount_of, coupon_warnings_of, coupon_code.
  now rewrite Hc, Hm, Hcp.
Qed.

Lemma pricing_ignores_identifiers_witness :
  compute_total (Some Examples.scenario)
  = compute_total
      (Some (mkInvoice "another id" "another customer" "TH" "" None
               [mkLineItem "another sku" "book" 1000%float 5 false])).
Proof.
  apply (pricing_ignores_identifiers Examples.scenario
           (mkInvoice "another id" "another customer" "TH" "" None
              [mkLineItem "another sku" "book" 1000%float 5 false]));
    reflexivity.
Defined.
